(** * piksi_tools.console.output_list: the log buffer behind the console view

    A shallow embedding of [src/piksi_tools/console/output_list.py]
    (Python 2: the module uses [dict.iteritems] and [dict.iterkeys]).

    - Python [str] values are byte strings: [string] of the Standard Library.
    - Python [int]s are unbounded: [Z].
    - The module-level dicts are [gmap Z string].
    - [LogItem] is a record; [time.strftime] reads the clock, so every
      function that builds a [LogItem] takes the formatted clock reading
      [now] as an argument.
    - [OutputList] is a record of its traits; a method that mutates [self]
      maps the old record to the new one, and a method that can raise
      returns a [result].
    - [unfiltered_list], [_paused_buffer] and [filtered_list] are Traits
      [List(LogItem)] attributes.  Assigning to such an attribute stores a
      freshly built [TraitListObject] holding the assigned items (the
      source says so itself: "Copy the current list to _paused_buffer"),
      so the three buffers are never the same object and are modelled as
      three values.
    - A raised exception ends the call; the object it leaves behind is not
      described.  Assertions are enabled (no [-O]). *)

From stdpp Require Import base list gmap strings.
From Stdlib Require Import ZArith Ascii String Lia.

Open Scope Z_scope.

(** ** Python 2 byte-string methods used by the module *)

Module PyStr.

(** C-locale [isspace]: space, \t, \n, \v, \f, \r. *)
Definition is_space_char (c : ascii) : bool :=
  match c with
  | " " | "009" | "010" | "011" | "012" | "013" => true
  | _ => false
  end%char.

Fixpoint all_space (s : string) : bool :=
  match s with
  | EmptyString => true
  | String c s' => is_space_char c && all_space s'
  end.

(** [s.isspace()]: every character is whitespace and there is at least
    one character. *)
Definition isspace (s : string) : bool :=
  match s with
  | EmptyString => false
  | String _ _ => all_space s
  end.

Definition is_upper_char (c : ascii) : bool :=
  ((65 <=? nat_of_ascii c) && (nat_of_ascii c <=? 90))%nat.

Definition lower_char (c : ascii) : ascii :=
  if is_upper_char c then ascii_of_nat (nat_of_ascii c + 32) else c.

(** [s.lower()] *)
Fixpoint lower (s : string) : string :=
  match s with
  | EmptyString => EmptyString
  | String c s' => String (lower_char c) (lower s')
  end.

(** [s.split(sep)] for a one-character separator: the pieces between the
    occurrences of [sep], never an empty list. *)
Fixpoint split (sep : ascii) (s : string) : list string :=
  match s with
  | EmptyString => [EmptyString]
  | String c s' =>
      if Ascii.eqb c sep then EmptyString :: split sep s'
      else match split sep s' with
           | [] => [String c EmptyString]
           | piece :: pieces => String c piece :: pieces
           end
  end.

(** [s.rstrip(ch)] for a one-character set. *)
Fixpoint rstrip (ch : ascii) (s : string) : string :=
  match s with
  | EmptyString => EmptyString
  | String c s' =>
      match rstrip ch s' with
      | EmptyString => if Ascii.eqb c ch then EmptyString
                       else String c EmptyString
      | r => String c r
      end
  end.

End PyStr.

(** ** Log levels *)

Definition LOG_EMERG : Z := 0.
Definition LOG_ALERT : Z := 1.
Definition LOG_CRIT : Z := 2.
Definition LOG_ERROR : Z := 3.
Definition LOG_WARN : Z := 4.
Definition LOG_NOTICE : Z := 5.
Definition LOG_INFO : Z := 6.
Definition LOG_DEBUG : Z := 7.

Definition LOG_LEVEL_CONSOLE : Z := -1.
Definition LOG_LEVEL_DEFAULT : Z := -2.

Definition OTHERLOG_LEVELS : gmap Z string :=
  {[ LOG_LEVEL_CONSOLE := "CONSOLE"%string ]}.

Definition SYSLOG_LEVELS : gmap Z string :=
  {[ LOG_ERROR := "ERROR"%string;
     LOG_WARN := "WARNING"%string;
     LOG_INFO := "INFO"%string;
     LOG_DEBUG := "DEBUG"%string ]}.

(** [SYSLOG_LEVELS.copy()] followed by [.update(OTHERLOG_LEVELS)]: the
    entries of [OTHERLOG_LEVELS] win. *)
Definition ALL_LOG_LEVELS : gmap Z string :=
  OTHERLOG_LEVELS ∪ SYSLOG_LEVELS.

Definition DEFAULT_LOG_LEVEL_FILTER : string := "WARNING".

Definition DEFAULT_MAX_LEN : Z := 250.

(** ** LogItem *)

Record LogItem := mkLogItem {
  log_level : Z;
  timestamp : string;
  msg : string
}.

#[global] Instance LogItem_eq_dec : EqDecision LogItem.
Proof. solve_decision. Defined.

(** [ALL_LOG_LEVELS.get(self.log_level, "UNKNOWN")] *)
Definition log_level_str (self : LogItem) : string :=
  default "UNKNOWN"%string (ALL_LOG_LEVELS !! log_level self).

(** The body of the [for key, value in ...iteritems()] loop of
    [LogItem.__init__], folded over the items in iteration order:
    [acc] is [self.log_level], [first] is [split_colons[0]]. *)
Definition infer_loop (first : string) (items : list (Z * string)) (acc : Z) : Z :=
  foldl (fun acc '(key, value) =>
           if String.eqb (PyStr.lower first) (PyStr.lower value)
           then key else acc)
        acc items.

(** [LogItem.__init__(self, msg, level=None)], with the clock reading [now]. *)
Definition LogItem__init__ (now : string) (msg : string) (level : option Z) : LogItem :=
  let log_level := LOG_LEVEL_DEFAULT in
  let log_level :=
    match level with
    | None =>
        let split_colons := PyStr.split ":" msg in
        infer_loop (hd EmptyString split_colons)
                   (map_to_list SYSLOG_LEVELS) log_level
    | Some level => level
    end in
  {| log_level := log_level;
     timestamp := now;
     msg := PyStr.rstrip "010" msg |}.

Definition matches_log_level_filter (self : LogItem) (log_level' : Z) : bool :=
  if log_level self <=? log_level' then true else false.

(** ** Exceptions *)

Inductive PyExn := TypeError | AssertionError | IndexError | TraitError.

Inductive result (A : Type) :=
| Ok (a : A)
| Raise (e : PyExn).
Arguments Ok {A} a.
Arguments Raise {A} e.

#[global] Instance result_ret : MRet result := fun A a => Ok a.
#[global] Instance result_bind : MBind result := fun A B f m =>
  match m with
  | Ok a => f a
  | Raise e => Raise e
  end.

(** [n > m] where [m] may be [None].  CPython 2 orders [None] below every
    number, so [n > None] is [True]. *)
Definition py2_gt (n : Z) (m : option Z) : bool :=
  match m with
  | None => true
  | Some m => m <? n
  end.

(** [n - m] where [m] may be [None]: [int - NoneType] is a [TypeError]. *)
Definition py_sub (n : Z) (m : option Z) : result Z :=
  match m with
  | None => Raise TypeError
  | Some m => Ok (n - m)
  end.

(** [len(buffer)] *)
Definition len {A} (buffer : list A) : Z := Z.of_nat (List.length buffer).

(** [buffer.pop()]: drops the last item; [IndexError] on an empty list.
    The popped item is not used by the caller. *)
Definition pop {A} (buffer : list A) : result (list A) :=
  match buffer with
  | [] => Raise IndexError
  | _ :: _ => Ok (removelast buffer)
  end.

(** ** OutputList *)

Record OutputList := mkOutputList {
  unfiltered_list : list LogItem;
  _paused_buffer : list LogItem;
  filtered_list : list LogItem;
  log_level_filter : Z;
  max_len : option Z;
  paused : bool
}.

Definition with_unfiltered_list (v : list LogItem) (self : OutputList) : OutputList :=
  mkOutputList v (_paused_buffer self) (filtered_list self)
               (log_level_filter self) (max_len self) (paused self).

Definition with_paused_buffer (v : list LogItem) (self : OutputList) : OutputList :=
  mkOutputList (unfiltered_list self) v (filtered_list self)
               (log_level_filter self) (max_len self) (paused self).

Definition with_filtered_list (v : list LogItem) (self : OutputList) : OutputList :=
  mkOutputList (unfiltered_list self) (_paused_buffer self) v
               (log_level_filter self) (max_len self) (paused self).

Definition with_log_level_filter (v : Z) (self : OutputList) : OutputList :=
  mkOutputList (unfiltered_list self) (_paused_buffer self) (filtered_list self)
               v (max_len self) (paused self).

Definition with_max_len (v : option Z) (self : OutputList) : OutputList :=
  mkOutputList (unfiltered_list self) (_paused_buffer self) (filtered_list self)
               (log_level_filter self) v (paused self).

Definition with_paused (v : bool) (self : OutputList) : OutputList :=
  mkOutputList (unfiltered_list self) (_paused_buffer self) (filtered_list self)
               (log_level_filter self) (max_len self) v.

(** [append_truncate(self, buffer, s)]; the result is [buffer] after the
    call. *)
Definition append_truncate (self : OutputList) (buffer : list LogItem) (s : LogItem)
  : result (list LogItem) :=
  buffer ←
    (if py2_gt (len buffer) (max_len self) then
       excess ← py_sub (len buffer) (max_len self);
       if excess =? 1 then pop buffer else Raise AssertionError
     else Ok buffer);
  Ok (s :: buffer).

(** [write(self, s)] *)
Definition write (now : string) (s : string) (self : OutputList) : result OutputList :=
  if negb (PyStr.isspace s) then
    let log := LogItem__init__ now s (Some LOG_LEVEL_CONSOLE) in
    if paused self then
      buffer ← append_truncate self (_paused_buffer self) log;
      Ok (with_paused_buffer buffer self)
    else
      buffer ← append_truncate self (unfiltered_list self) log;
      let self := with_unfiltered_list buffer self in
      if matches_log_level_filter log (log_level_filter self) then
        buffer ← append_truncate self (filtered_list self) log;
        Ok (with_filtered_list buffer self)
      else Ok self
  else Ok self.

(** [write_level(self, s, level=None)] *)
Definition write_level (now : string) (s : string) (level : option Z)
    (self : OutputList) : result OutputList :=
  let log := LogItem__init__ now s level in
  if paused self then
    buffer ← append_truncate self (_paused_buffer self) log;
    Ok (with_paused_buffer buffer self)
  else
    buffer ← append_truncate self (unfiltered_list self) log;
    let self := with_unfiltered_list buffer self in
    if matches_log_level_filter log (log_level_filter self) then
      buffer ← append_truncate self (filtered_list self) log;
      Ok (with_filtered_list buffer self)
    else Ok self.

(** [clear(self)] *)
Definition clear (self : OutputList) : OutputList :=
  let self := with_paused_buffer [] self in
  let self := with_filtered_list [] self in
  with_unfiltered_list [] self.

(** [flush(self)] pumps the GUI event loop; [close(self)] does nothing.
    Neither touches the traits. *)
Definition flush (self : OutputList) : OutputList := self.
Definition close (self : OutputList) : OutputList := self.

(** [_log_level_filter_changed(self)] *)
Definition _log_level_filter_changed (self : OutputList) : OutputList :=
  with_filtered_list
    (List.filter (fun item => matches_log_level_filter item (log_level_filter self))
                 (unfiltered_list self))
    self.

(** [_paused_changed(self)]: runs after [self.paused] took its new value.
    Both assignments between the [List(LogItem)] traits go through the
    trait's validation, which builds a new [TraitListObject] from the items
    of the assigned list: a copy, as the source's comments say. *)
Definition _paused_changed (self : OutputList) : OutputList :=
  if paused self then
    with_paused_buffer (unfiltered_list self) self
  else
    let self := with_unfiltered_list (_paused_buffer self) self in
    let self := _log_level_filter_changed self in
    with_paused_buffer [] self.

(** ** Trait assignment

    Traits calls the static handler [_<name>_changed] after an assignment
    that changes the value of trait [<name>], and not when the assigned
    value equals the old one. *)

(** [self.paused = v] *)
Definition set_paused (v : bool) (self : OutputList) : OutputList :=
  if bool_decide (paused self = v) then self
  else _paused_changed (with_paused v self).

(** [self.log_level_filter = v]: the trait is
    [Enum(list(SYSLOG_LEVELS.iterkeys()))], which rejects any other value. *)
Definition set_log_level_filter (v : Z) (self : OutputList) : result OutputList :=
  if bool_decide (is_Some (SYSLOG_LEVELS !! v)) then
    if bool_decide (log_level_filter self = v) then Ok self
    else Ok (_log_level_filter_changed (with_log_level_filter v self))
  else Raise TraitError.

(** [self.max_len = v]: [Trait(DEFAULT_MAX_LEN, None, Int)] takes [None] or
    any integer and has no handler. *)
Definition set_max_len (v : option Z) (self : OutputList) : OutputList :=
  with_max_len v self.

(** [OutputList()]: empty lists, the first value of the [Enum] (CPython 2
    iterates the keys 3, 4, 6, 7 in this order), [DEFAULT_MAX_LEN], not
    paused. *)
Definition OutputList__init__ : OutputList :=
  {| unfiltered_list := [];
     _paused_buffer := [];
     filtered_list := [];
     log_level_filter := LOG_ERROR;
     max_len := Some DEFAULT_MAX_LEN;
     paused := false |}.

(** ** Call sequences *)

Inductive call :=
| Write (now s : string)
| WriteLevel (now s : string) (level : option Z)
| SetLogLevelFilter (v : Z)
| SetPaused (v : bool)
| Clear
| Flush
| Close.

Definition step (c : call) (self : OutputList) : result OutputList :=
  match c with
  | Write now s => write now s self
  | WriteLevel now s level => write_level now s level self
  | SetLogLevelFilter v => set_log_level_filter v self
  | SetPaused v => Ok (set_paused v self)
  | Clear => Ok (clear self)
  | Flush => Ok (flush self)
  | Close => Ok (close self)
  end.

Fixpoint run (cs : list call) (self : OutputList) : result OutputList :=
  match cs with
  | [] => Ok self
  | c :: cs => self ← step c self; run cs self
  end.

(** The states an [OutputList] built with [max_len = ml] goes through. *)
Inductive reachable (ml : option Z) : OutputList -> Prop :=
| reachable_init : reachable ml (set_max_len ml OutputList__init__)
| reachable_step c self self' :
    reachable ml self -> step c self = Ok self' -> reachable ml self'.

(** ** Vocabulary of the properties *)

(** Where [write] and [write_level] put a new item. *)
Definition target_buffer (self : OutputList) : list LogItem :=
  if paused self then _paused_buffer self else unfiltered_list self.

(** Every item held by the object. *)
Definition all_items (self : OutputList) : list LogItem :=
  (unfiltered_list self ++ _paused_buffer self ++ filtered_list self)%list.

(** An item passes the threshold [thr]. *)
Definition passes (thr : Z) (item : LogItem) : Prop := log_level item <= thr.

#[global] Instance passes_dec thr item : Decision (passes thr item).
Proof. unfold passes. apply _. Defined.

(** [filtered_list] is the items of [unfiltered_list] that pass
    [log_level_filter], in the order of [unfiltered_list]. *)
Definition filter_consistent (self : OutputList) : Prop :=
  filtered_list self = filter (passes (log_level_filter self)) (unfiltered_list self).

(** No buffer is longer than [n + 1], with [max_len = n >= 0]. *)
Definition bounded (n : Z) (self : OutputList) : Prop :=
  max_len self = Some n /\ 0 <= n /\
  len (unfiltered_list self) <= n + 1 /\
  len (_paused_buffer self) <= n + 1 /\
  len (filtered_list self) <= n + 1.

(** A call that Traits accepts: the only rejected one assigns a value
    outside the [Enum] to [log_level_filter]. *)
Definition accepted (c : call) : Prop :=
  match c with
  | SetLogLevelFilter v => is_Some (SYSLOG_LEVELS !! v)
  | _ => True
  end.

Definition chars (s : string) : list ascii := list_ascii_of_string s.

Definition whitespace_char (c : ascii) : Prop :=
  In c [" "; "009"; "010"; "011"; "012"; "013"]%char.

(** [s] has at least one character and nothing but whitespace. *)
Definition whitespace_only (s : string) : Prop :=
  s <> EmptyString /\ forall c, In c (chars s) -> whitespace_char c.

(** [p] is the text of [s] before its first colon, all of [s] when it has
    none. *)
Definition before_first_colon (s p : string) : Prop :=
  ~ In ":"%char (chars p) /\
  (s = p \/ exists rest, s = (p ++ String ":" rest)%string).

(** [up] is a capital ASCII letter and [lo] the same letter in lower case. *)
Definition capital_of (lo up : ascii) : Prop :=
  (65 <= nat_of_ascii up <= 90)%nat /\
  nat_of_ascii lo = (nat_of_ascii up + 32)%nat.

Definition same_letter (a b : ascii) : Prop :=
  a = b \/ capital_of a b \/ capital_of b a.

(** Equality of strings up to the case of ASCII letters. *)
Inductive eq_nocase : string -> string -> Prop :=
| eq_nocase_nil : eq_nocase EmptyString EmptyString
| eq_nocase_cons a b s t :
    same_letter a b -> eq_nocase s t -> eq_nocase (String a s) (String b t).

(** The comparison of the inference loop: [first.lower() == value.lower()]. *)
Definition label_matches (first value : string) : Prop :=
  PyStr.lower first = PyStr.lower value.

#[global] Instance label_matches_dec first value : Decision (label_matches first value).
Proof. unfold label_matches. apply _. Defined.

(** [k] calls of [write_level] with the explicit level [level]. *)
Definition flood (level : Z) (k : nat) : list call :=
  repeat (WriteLevel "Nov 04 2026 12:00:00" "tick" (Some level)) k.

(** ** Vocabulary of the further properties *)

(** The [write] and [write_level] calls. *)
Definition is_write (c : call) : Prop :=
  match c with
  | Write _ _ | WriteLevel _ _ _ => True
  | _ => False
  end.

(** The item a call makes, if it makes one. *)
Definition item_of_call (c : call) : option LogItem :=
  match c with
  | Write now s =>
      if PyStr.isspace s then None
      else Some (LogItem__init__ now s (Some LOG_LEVEL_CONSOLE))
  | WriteLevel now s level => Some (LogItem__init__ now s level)
  | _ => None
  end.

(** The items a sequence of calls makes, the newest first. *)
Definition written (cs : list call) : list LogItem :=
  rev (omap item_of_call cs).

(** The [n + 1] first items of a list. *)
Definition newest (n : Z) (l : list LogItem) : list LogItem :=
  take (Z.to_nat (n + 1)) l.

Definition is_letter (c : ascii) : Prop :=
  (65 <= nat_of_ascii c <= 90 \/ 97 <= nat_of_ascii c <= 122)%nat.

(** [k] newline characters. *)
Fixpoint newlines (k : nat) : string :=
  match k with
  | O => EmptyString
  | S k => String "010" (newlines k)
  end.

Definition ends_with_newline (s : string) : Prop :=
  exists s', s = (s' ++ String "010" EmptyString)%string.

(** The order in which CPython 2 iterates [SYSLOG_LEVELS]. *)
Definition SYSLOG_LEVELS_iteritems : list (Z * string) :=
  [(LOG_ERROR, "ERROR"%string); (LOG_WARN, "WARNING"%string);
   (LOG_INFO, "INFO"%string); (LOG_DEBUG, "DEBUG"%string)].

(** * Properties *)

(** ** Byte strings *)

Section PyStrFacts.
Import PyStr.

Lemma append_Empty t : (EmptyString ++ t)%string = t.
Proof. reflexivity. Qed.

Lemma append_String c s t : (String c s ++ t)%string = String c (s ++ t)%string.
Proof. reflexivity. Qed.

Lemma split_nonempty sep s : split sep s <> [].
Proof.
  destruct s as [|c s]; simpl; [discriminate|].
  destruct (Ascii.eqb c sep); [discriminate|].
  destruct (split sep s); discriminate.
Qed.

Lemma hd_split_String sep c s :
  hd EmptyString (split sep (String c s)) =
  if Ascii.eqb c sep then EmptyString
  else String c (hd EmptyString (split sep s)).
Proof.
  simpl. destruct (Ascii.eqb c sep); [reflexivity|].
  pose proof (split_nonempty sep s) as Hne.
  destruct (split sep s); [contradiction|reflexivity].
Qed.

(** [split(":")[0]] is the text before the first colon. *)
Lemma split_before_first_colon s :
  before_first_colon s (hd EmptyString (split ":" s)).
Proof.
  induction s as [|c s [Hno Hs]].
  - split; [intros []|left; reflexivity].
  - rewrite hd_split_String.
    destruct (Ascii.eqb_spec c ":") as [->|Hc].
    + split; [intros []|right; exists s; reflexivity].
    + split.
      * intros [Heq|Hin]; [congruence|exact (Hno Hin)].
      * destruct Hs as [Hs|[rest Hs]].
        -- left. congruence.
        -- right. exists rest. rewrite Hs at 1. reflexivity.
Qed.

Lemma before_first_colon_unique s p q :
  before_first_colon s p -> before_first_colon s q -> p = q.
Proof.
  revert p q. induction s as [|c s IH]; intros p q [Hp Hsp] [Hq Hsq].
  - assert (forall r, (EmptyString = r \/
              exists rest, EmptyString = (r ++ String ":" rest)%string) ->
              r = EmptyString) as Hnil.
    { intros r [<-|[rest Hr]]; [reflexivity|].
      destruct r; rewrite ?append_String, ?append_Empty in Hr; discriminate. }
    rewrite (Hnil p Hsp), (Hnil q Hsq). reflexivity.
  - assert (forall r, ~ In ":"%char (chars r) ->
              (String c s = r \/
               exists rest, String c s = (r ++ String ":" rest)%string) ->
              (c = ":"%char /\ r = EmptyString) \/
              (c <> ":"%char /\ exists r', r = String c r' /\
                 before_first_colon s r')) as Hcons.
    { intros r Hr Hsr. destruct r as [|d r].
      - left. split; [|reflexivity].
        destruct Hsr as [Hsr|[rest Hsr]];
          rewrite ?append_Empty in Hsr; congruence.
      - right.
        assert (d = c) as ->.
        { destruct Hsr as [Hsr|[rest Hsr]];
            rewrite ?append_String in Hsr; congruence. }
        split; [intros ->; apply Hr; left; reflexivity|].
        exists r. split; [reflexivity|]. split.
        + intros Hin. apply Hr. right. exact Hin.
        + destruct Hsr as [Hsr|[rest Hsr]].
          * left. congruence.
          * right. exists rest. rewrite append_String in Hsr. congruence. }
    destruct (Hcons p Hp Hsp) as [[Hc ->]|[Hc (p' & -> & Hp')]],
             (Hcons q Hq Hsq) as [[Hc' ->]|[Hc' (q' & -> & Hq')]];
      try reflexivity; try contradiction.
    f_equal. exact (IH p' q' Hp' Hq').
Qed.

Lemma is_upper_char_spec c :
  is_upper_char c = true <-> (65 <= nat_of_ascii c <= 90)%nat.
Proof.
  unfold is_upper_char.
  rewrite andb_true_iff, !Nat.leb_le. reflexivity.
Qed.

Lemma nat_of_lower_char c :
  nat_of_ascii (lower_char c) =
  if is_upper_char c then (nat_of_ascii c + 32)%nat else nat_of_ascii c.
Proof.
  unfold lower_char.
  destruct (is_upper_char c) eqn:Hup; [|reflexivity].
  apply is_upper_char_spec in Hup.
  apply nat_ascii_embedding. lia.
Qed.

Lemma nat_of_ascii_inj a b : nat_of_ascii a = nat_of_ascii b -> a = b.
Proof.
  intros H. rewrite <- (ascii_nat_embedding a), <- (ascii_nat_embedding b).
  congruence.
Qed.

Lemma lower_char_same_letter a b :
  lower_char a = lower_char b <-> same_letter a b.
Proof.
  unfold same_letter, capital_of. split.
  - intros H. apply (f_equal nat_of_ascii) in H.
    rewrite !nat_of_lower_char in H.
    destruct (is_upper_char a) eqn:Ha, (is_upper_char b) eqn:Hb.
    + left. apply nat_of_ascii_inj. lia.
    + apply is_upper_char_spec in Ha. right. right. lia.
    + apply is_upper_char_spec in Hb. right. left. lia.
    + left. apply nat_of_ascii_inj. exact H.
  - intros H. apply nat_of_ascii_inj. rewrite !nat_of_lower_char.
    destruct H as [->|[[Hb Hab]|[Ha Hba]]]; [reflexivity| |].
    + assert (is_upper_char b = true) as -> by (apply is_upper_char_spec; lia).
      destruct (is_upper_char a) eqn:Ha; [|lia].
      apply is_upper_char_spec in Ha. lia.
    + assert (is_upper_char a = true) as -> by (apply is_upper_char_spec; lia).
      destruct (is_upper_char b) eqn:Hb; [|lia].
      apply is_upper_char_spec in Hb. lia.
Qed.

(** Comparing the [lower()] of two strings is comparing them up to case. *)
Lemma lower_eq_nocase s t : lower s = lower t <-> eq_nocase s t.
Proof.
  split.
  - revert t. induction s as [|a s IH]; intros [|b t] H;
      try discriminate; [constructor|].
    simpl in H. injection H as Hc Hs.
    constructor; [apply lower_char_same_letter; exact Hc|apply IH; exact Hs].
  - induction 1 as [|a b s t Hab _ IH]; [reflexivity|].
    simpl. f_equal; [apply lower_char_same_letter; exact Hab|exact IH].
Qed.

Lemma is_space_char_spec c : is_space_char c = true <-> whitespace_char c.
Proof.
  unfold whitespace_char. split.
  - intros H.
    destruct c as [[] [] [] [] [] [] [] []]; try discriminate H;
      simpl; tauto.
  - intros H. simpl in H.
    destruct H as [<-|[<-|[<-|[<-|[<-|[<-|[]]]]]]]; reflexivity.
Qed.

Lemma all_space_spec s :
  all_space s = true <-> forall c, In c (chars s) -> whitespace_char c.
Proof.
  induction s as [|a s IH]; simpl.
  - split; [intros _ c []|reflexivity].
  - rewrite andb_true_iff, IH, is_space_char_spec. split.
    + intros [Ha Hs] c [<-|Hc]; [exact Ha|exact (Hs c Hc)].
    + intros H. split; [apply H; left; reflexivity|].
      intros c Hc. apply H. right. exact Hc.
Qed.

(** [isspace()] holds of the strings made of whitespace only. *)
Lemma isspace_spec s : isspace s = true <-> whitespace_only s.
Proof.
  unfold whitespace_only. destruct s as [|a s].
  - simpl. split; [discriminate|intros [H _]; contradiction].
  - change (isspace (String a s)) with (all_space (String a s)).
    rewrite all_space_spec. split; [intros H; split; [discriminate|exact H]|tauto].
Qed.

End PyStrFacts.

(** ** Severity inference *)

Section Inference.
Variable first : string.

Lemma infer_loop_cons key value items acc :
  infer_loop first ((key, value) :: items) acc =
  infer_loop first items
    (if String.eqb (PyStr.lower first) (PyStr.lower value) then key else acc).
Proof. reflexivity. Qed.

(** No label matches: the loop leaves [self.log_level] alone. *)
Lemma infer_loop_no_match items acc :
  (forall key value, (key, value) ∈ items -> ~ label_matches first value) ->
  infer_loop first items acc = acc.
Proof.
  revert acc. induction items as [|[key value] items IH]; intros acc Hno;
    [reflexivity|].
  rewrite infer_loop_cons.
  destruct (String.eqb_spec (PyStr.lower first) (PyStr.lower value)) as [Heq|_].
  - exfalso. apply (Hno key value); [left|exact Heq].
  - apply IH. intros k v Hkv. apply (Hno k v). right. exact Hkv.
Qed.

(** One label matches, and the labels differ pairwise up to case: the
    loop ends with the key of the matching label, whatever the iteration
    order. *)
Lemma infer_loop_match items acc key value :
  NoDup ((PyStr.lower ∘ snd) <$> items) ->
  (key, value) ∈ items ->
  label_matches first value ->
  infer_loop first items acc = key.
Proof.
  revert acc. induction items as [|[k v] items IH]; intros acc Hnd Hin Hm.
  - inversion Hin.
  - rewrite infer_loop_cons. rewrite fmap_cons in Hnd.
    apply NoDup_cons in Hnd as [Hfresh Hnd].
    apply elem_of_cons in Hin as [Heq|Hin].
    + injection Heq as <- <-.
      destruct (String.eqb_spec (PyStr.lower first) (PyStr.lower value)) as [_|Hne];
        [|contradiction].
      apply infer_loop_no_match. intros k' v' Hin' Hm'.
      apply Hfresh. apply list_elem_of_fmap. exists (k', v').
      split; [simpl; unfold label_matches in *; congruence|exact Hin'].
    + apply IH; assumption.
Qed.

Lemma infer_loop_permutation items items' acc :
  NoDup ((PyStr.lower ∘ snd) <$> items) ->
  items ≡ₚ items' ->
  infer_loop first items acc = infer_loop first items' acc.
Proof.
  intros Hnd Hperm.
  destruct (decide (Exists (fun kv => label_matches first kv.2) items)) as [Hex|Hno].
  - apply Exists_exists in Hex as ([key value] & Hin & Hm).
    rewrite (infer_loop_match items acc key value Hnd Hin Hm).
    symmetry.
    apply (infer_loop_match items' acc key value);
      [|rewrite <- Hperm; exact Hin|exact Hm].
    rewrite <- Hperm. exact Hnd.
  - rewrite !infer_loop_no_match; [reflexivity| |].
    + intros key value Hin Hm. apply Hno. apply Exists_exists.
      exists (key, value). split; [rewrite Hperm; exact Hin|exact Hm].
    + intros key value Hin Hm. apply Hno. apply Exists_exists.
      exists (key, value). split; [exact Hin|exact Hm].
Qed.

End Inference.

Lemma SYSLOG_LEVELS_labels_distinct :
  NoDup ((PyStr.lower ∘ snd) <$> map_to_list SYSLOG_LEVELS).
Proof. apply (bool_decide_unpack _). vm_compute. exact I. Qed.

(** The level inferred from the text [first] before the first colon. *)
Lemma inferred_level_match first key value :
  SYSLOG_LEVELS !! key = Some value ->
  eq_nocase first value ->
  infer_loop first (map_to_list SYSLOG_LEVELS) LOG_LEVEL_DEFAULT = key.
Proof.
  intros Hkv Hm.
  apply (infer_loop_match first _ _ key value).
  - exact SYSLOG_LEVELS_labels_distinct.
  - apply elem_of_map_to_list. exact Hkv.
  - apply lower_eq_nocase. exact Hm.
Qed.

Lemma inferred_level_no_match first :
  (forall key value, SYSLOG_LEVELS !! key = Some value -> ~ eq_nocase first value) ->
  infer_loop first (map_to_list SYSLOG_LEVELS) LOG_LEVEL_DEFAULT = LOG_LEVEL_DEFAULT.
Proof.
  intros Hno. apply infer_loop_no_match.
  intros key value Hin Hm.
  apply (Hno key value); [apply elem_of_map_to_list; exact Hin|].
  apply lower_eq_nocase. exact Hm.
Qed.

(** The result does not depend on the order in which the dict is iterated. *)
Lemma inferred_level_any_order first items :
  items ≡ₚ map_to_list SYSLOG_LEVELS ->
  infer_loop first items LOG_LEVEL_DEFAULT =
  infer_loop first (map_to_list SYSLOG_LEVELS) LOG_LEVEL_DEFAULT.
Proof.
  intros Hperm. symmetry.
  apply infer_loop_permutation; [exact SYSLOG_LEVELS_labels_distinct|].
  symmetry. exact Hperm.
Qed.

Lemma SYSLOG_LEVELS_lookup key value :
  SYSLOG_LEVELS !! key = Some value <->
  (key = LOG_ERROR /\ value = "ERROR"%string) \/
  (key = LOG_WARN /\ value = "WARNING"%string) \/
  (key = LOG_INFO /\ value = "INFO"%string) \/
  (key = LOG_DEBUG /\ value = "DEBUG"%string).
Proof.
  unfold SYSLOG_LEVELS. split.
  - intros H.
    repeat (apply lookup_insert_Some in H as [[<- <-]|[_ H]]; [tauto|]).
    apply lookup_singleton_Some in H as [<- <-]. tauto.
  - intros [[-> ->]|[[-> ->]|[[-> ->]|[-> ->]]]]; reflexivity.
Qed.

Lemma SYSLOG_LEVELS_keys v :
  is_Some (SYSLOG_LEVELS !! v) <->
  v = LOG_ERROR \/ v = LOG_WARN \/ v = LOG_INFO \/ v = LOG_DEBUG.
Proof.
  split.
  - intros [value H]. apply (SYSLOG_LEVELS_lookup v value) in H. tauto.
  - intros [->|[->|[->| ->]]]; eexists; reflexivity.
Qed.

(** ** LogItem *)

Lemma LogItem__init__explicit now s level :
  LogItem__init__ now s (Some level) =
  {| log_level := level; timestamp := now; msg := PyStr.rstrip "010" s |}.
Proof. reflexivity. Qed.

Lemma matches_log_level_filter_spec item thr :
  matches_log_level_filter item thr = true <-> passes thr item.
Proof.
  unfold matches_log_level_filter, passes.
  destruct (Z.leb_spec (log_level item) thr); split; intros; try lia;
    try discriminate; reflexivity.
Qed.

(** The list comprehension of [_log_level_filter_changed]. *)
Lemma comprehension_filter thr (l : list LogItem) :
  List.filter (fun item => matches_log_level_filter item thr) l =
  filter (passes thr) l.
Proof.
  induction l as [|item l IH]; [reflexivity|].
  simpl. rewrite filter_cons, IH.
  destruct (matches_log_level_filter item thr) eqn:Hm.
  - rewrite decide_True; [reflexivity|].
    apply matches_log_level_filter_spec. exact Hm.
  - rewrite decide_False; [reflexivity|].
    intros Hp. apply matches_log_level_filter_spec in Hp. congruence.
Qed.

(** ** The append path *)

Lemma len_nil {A} : len (@nil A) = 0.
Proof. reflexivity. Qed.

Lemma len_cons {A} (x : A) l : len (x :: l) = len l + 1.
Proof. unfold len. simpl. lia. Qed.

Lemma len_nonneg {A} (l : list A) : 0 <= len l.
Proof. unfold len. lia. Qed.

Lemma len_removelast {A} (l : list A) : l <> [] -> len (removelast l) = len l - 1.
Proof.
  intros Hne. destruct (exists_last Hne) as (l' & x & ->).
  rewrite removelast_last. unfold len. rewrite List.length_app. simpl. lia.
Qed.

Lemma len_filter thr (l : list LogItem) : len (filter (passes thr) l) <= len l.
Proof. unfold len. pose proof (length_filter (passes thr) l). lia. Qed.

(** With room left, the item goes in front and nothing is dropped. *)
Lemma append_truncate_room self buffer s n :
  max_len self = Some n -> len buffer <= n ->
  append_truncate self buffer s = Ok (s :: buffer).
Proof.
  intros Hml Hlen. unfold append_truncate. rewrite Hml. simpl.
  destruct (Z.ltb_spec n (len buffer)); [lia|reflexivity].
Qed.

(** One item over [max_len]: the oldest item is dropped first. *)
Lemma append_truncate_full self buffer s n :
  max_len self = Some n -> 0 <= n -> len buffer = n + 1 ->
  append_truncate self buffer s = Ok (s :: removelast buffer).
Proof.
  intros Hml Hn Hlen. unfold append_truncate. rewrite Hml. simpl.
  destruct (Z.ltb_spec n (len buffer)); [|lia].
  unfold mbind, result_bind.
  replace (len buffer - n) with 1 by lia. simpl.
  destruct buffer; [rewrite len_nil in Hlen; lia|reflexivity].
Qed.

(** More than one item over [max_len]: the assertion fails. *)
Lemma append_truncate_overlong self buffer s n :
  max_len self = Some n -> n + 1 < len buffer ->
  append_truncate self buffer s = Raise AssertionError.
Proof.
  intros Hml Hlen. unfold append_truncate. rewrite Hml. simpl.
  destruct (Z.ltb_spec n (len buffer)); [|lia].
  unfold mbind, result_bind.
  destruct (Z.eqb_spec (len buffer - n) 1); [lia|reflexivity].
Qed.

(** [max_len = None]: the comparison holds and the subtraction raises. *)
Lemma append_truncate_None self buffer s :
  max_len self = None ->
  append_truncate self buffer s = Raise TypeError.
Proof. intros Hml. unfold append_truncate. rewrite Hml. reflexivity. Qed.

(** When the call returns, the item is in front of the old buffer, which
    lost its last item at most. *)
Lemma append_truncate_Ok self buffer s buffer' :
  append_truncate self buffer s = Ok buffer' ->
  buffer' = s :: buffer \/ buffer' = s :: removelast buffer.
Proof.
  unfold append_truncate. intros H.
  destruct (py2_gt (len buffer) (max_len self)).
  - destruct (max_len self) as [n|]; [|discriminate H]. simpl in H.
    unfold mbind, result_bind in H.
    destruct (len buffer - n =? 1); [|discriminate H].
    destruct buffer; [discriminate H|].
    right. injection H as <-. reflexivity.
  - left. injection H as <-. reflexivity.
Qed.

Lemma append_truncate_Ok_elem self buffer s buffer' item :
  append_truncate self buffer s = Ok buffer' ->
  item ∈ buffer' -> item = s \/ item ∈ buffer.
Proof.
  intros H Hin. apply append_truncate_Ok in H as [-> | ->];
    apply elem_of_cons in Hin as [->|Hin]; auto.
  right. apply list_elem_of_In. apply list_elem_of_In in Hin.
  destruct buffer as [|x buffer]; [exact Hin|].
  destruct (exists_last (l := x :: buffer)) as (l' & y & Heq); [discriminate|].
  rewrite Heq in *. rewrite removelast_last in Hin.
  apply in_or_app. left. exact Hin.
Qed.

(** Within the bound the call returns, and the bound is kept. *)
Lemma append_truncate_bounded self buffer s n :
  max_len self = Some n -> 0 <= n -> len buffer <= n + 1 ->
  exists buffer',
    append_truncate self buffer s = Ok buffer' /\
    len buffer' <= n + 1 /\
    buffer' = s :: (if bool_decide (len buffer <= n) then buffer
                    else removelast buffer).
Proof.
  intros Hml Hn Hlen. case_bool_decide as Hroom.
  - exists (s :: buffer). rewrite len_cons.
    split; [apply (append_truncate_room _ _ _ n); assumption|].
    split; [lia|reflexivity].
  - exists (s :: removelast buffer). rewrite len_cons.
    split; [apply (append_truncate_full _ _ _ n); [assumption..|lia]|].
    split; [|reflexivity].
    rewrite len_removelast; [lia|].
    intros ->. rewrite len_nil in Hroom. lia.
Qed.

(** ** Calls keep the bound and return *)

Lemma write_level_bounded n now s level self :
  bounded n self ->
  exists self', write_level now s level self = Ok self' /\ bounded n self'.
Proof.
  intros (Hml & Hn & Hu & Hp & Hf). unfold write_level.
  set (log := LogItem__init__ now s level).
  destruct (paused self) eqn:Hpaused.
  - destruct (append_truncate_bounded self (_paused_buffer self) log n)
      as (b & -> & Hb & _); [assumption..|].
    eexists. split; [reflexivity|]. repeat split; assumption.
  - destruct (append_truncate_bounded self (unfiltered_list self) log n)
      as (b & -> & Hb & _); [assumption..|].
    simpl. destruct (matches_log_level_filter log (log_level_filter self)).
    + destruct (append_truncate_bounded (with_unfiltered_list b self)
                  (filtered_list self) log n) as (b' & -> & Hb' & _);
        [assumption..|].
      eexists. split; [reflexivity|]. repeat split; assumption.
    + eexists. split; [reflexivity|]. repeat split; assumption.
Qed.

Lemma write_as_write_level now s self :
  PyStr.isspace s = false ->
  write now s self = write_level now s (Some LOG_LEVEL_CONSOLE) self.
Proof. intros Hs. unfold write, write_level. rewrite Hs. reflexivity. Qed.

Lemma write_isspace now s self :
  PyStr.isspace s = true -> write now s self = Ok self.
Proof. intros Hs. unfold write. rewrite Hs. reflexivity. Qed.

Lemma write_bounded n now s self :
  bounded n self ->
  exists self', write now s self = Ok self' /\ bounded n self'.
Proof.
  intros Hb. destruct (PyStr.isspace s) eqn:Hs.
  - exists self. split; [apply write_isspace; exact Hs|exact Hb].
  - rewrite write_as_write_level by exact Hs. apply write_level_bounded. exact Hb.
Qed.

Lemma _log_level_filter_changed_bounded n self :
  bounded n self -> bounded n (_log_level_filter_changed self).
Proof.
  intros (Hml & Hn & Hu & Hp & Hf). repeat split; try assumption.
  simpl. rewrite comprehension_filter.
  pose proof (len_filter (log_level_filter self) (unfiltered_list self)). lia.
Qed.

Lemma set_paused_bounded n v self :
  bounded n self -> bounded n (set_paused v self).
Proof.
  intros Hb. unfold set_paused. case_bool_decide; [exact Hb|].
  destruct Hb as (Hml & Hn & Hu & Hp & Hf).
  unfold _paused_changed. destruct v; simpl.
  - repeat split; assumption.
  - pose proof (len_filter (log_level_filter self) (_paused_buffer self)).
    repeat split; try assumption.
    + pose proof (len_nonneg (_paused_buffer self)). unfold len. simpl. lia.
    + simpl. rewrite comprehension_filter. lia.
Qed.

Lemma step_bounded n c self :
  accepted c -> bounded n self ->
  exists self', step c self = Ok self' /\ bounded n self'.
Proof.
  intros Hc Hb. destruct c as [now s|now s level|v|v| | |]; simpl.
  - apply write_bounded. exact Hb.
  - apply write_level_bounded. exact Hb.
  - simpl in Hc. unfold set_log_level_filter.
    rewrite bool_decide_eq_true_2 by exact Hc.
    case_bool_decide; eexists; (split; [reflexivity|]); [exact Hb|].
    apply _log_level_filter_changed_bounded.
    destruct Hb as (Hml & Hn & Hu & Hp & Hf). repeat split; assumption.
  - eexists. split; [reflexivity|]. apply set_paused_bounded. exact Hb.
  - eexists. split; [reflexivity|].
    destruct Hb as (Hml & Hn & Hu & Hp & Hf).
    repeat split; try assumption; unfold len; simpl; lia.
  - eexists. split; [reflexivity|exact Hb].
  - eexists. split; [reflexivity|exact Hb].
Qed.

(** Every sequence of accepted calls runs to the end. *)
Lemma run_bounded n cs self :
  Forall accepted cs -> bounded n self ->
  exists self', run cs self = Ok self' /\ bounded n self'.
Proof.
  intros Hcs. revert self. induction Hcs as [|c cs Hc _ IH]; intros self Hb.
  - exists self. split; [reflexivity|exact Hb].
  - destruct (step_bounded n c self Hc Hb) as (self1 & Hstep & Hb1).
    destruct (IH self1 Hb1) as (self' & Hrun & Hb').
    exists self'. split; [|exact Hb']. simpl. rewrite Hstep. exact Hrun.
Qed.

Lemma step_Ok_accepted c self self' : step c self = Ok self' -> accepted c.
Proof.
  destruct c; simpl; try exact (fun _ => I).
  unfold set_log_level_filter. case_bool_decide; [auto|discriminate].
Qed.

Lemma run_reachable ml cs self self' :
  reachable ml self -> run cs self = Ok self' -> reachable ml self'.
Proof.
  revert self. induction cs as [|c cs IH]; intros self Hr Hrun.
  - injection Hrun as <-. exact Hr.
  - simpl in Hrun. destruct (step c self) as [self1|e] eqn:Hstep;
      [|discriminate Hrun].
    apply (IH self1); [|exact Hrun].
    apply (reachable_step ml c self self1 Hr Hstep).
Qed.

Lemma init_bounded n : 0 <= n -> bounded n (set_max_len (Some n) OutputList__init__).
Proof. intros Hn. repeat split; unfold len; simpl; lia. Qed.

Lemma reachable_bounded n self :
  0 <= n -> reachable (Some n) self -> bounded n self.
Proof.
  intros Hn. induction 1 as [|c self self' _ IH Hstep].
  - apply init_bounded. exact Hn.
  - destruct (step_bounded n c self (step_Ok_accepted _ _ _ Hstep) IH)
      as (self1 & Hstep1 & Hb).
    congruence.
Qed.

(** ** What a returning write did *)

(** [write_level] changes the target buffer through [append_truncate], the
    filtered list too when not paused and the item passes, and nothing
    else. *)
Lemma write_level_Ok now s level self self' :
  write_level now s level self = Ok self' ->
  let log := LogItem__init__ now s level in
  max_len self' = max_len self /\
  paused self' = paused self /\
  log_level_filter self' = log_level_filter self /\
  if paused self then
    append_truncate self (_paused_buffer self) log = Ok (_paused_buffer self') /\
    unfiltered_list self' = unfiltered_list self /\
    filtered_list self' = filtered_list self
  else
    append_truncate self (unfiltered_list self) log = Ok (unfiltered_list self') /\
    _paused_buffer self' = _paused_buffer self /\
    if matches_log_level_filter log (log_level_filter self) then
      append_truncate self (filtered_list self) log = Ok (filtered_list self')
    else filtered_list self' = filtered_list self.
Proof.
  unfold write_level. intros H. cbv zeta in *.
  set (log := LogItem__init__ now s level) in *.
  destruct (paused self) eqn:Hpaused.
  - destruct (append_truncate self (_paused_buffer self) log) as [b|e];
      [|discriminate H].
    injection H as <-. simpl. rewrite Hpaused. auto 10.
  - destruct (append_truncate self (unfiltered_list self) log) as [b|e];
      [|discriminate H].
    simpl in H.
    destruct (matches_log_level_filter log (log_level_filter self)).
    + change (append_truncate (with_unfiltered_list b self) (filtered_list self) log)
        with (append_truncate self (filtered_list self) log) in H.
      destruct (append_truncate self (filtered_list self) log) as [b'|e];
        [|discriminate H].
      injection H as <-. simpl. rewrite Hpaused. auto 10.
    + injection H as <-. simpl. rewrite Hpaused. auto 10.
Qed.

(** The new item is the first of the target buffer. *)
Lemma write_level_head now s level self self' :
  write_level now s level self = Ok self' ->
  hd_error (target_buffer self') = Some (LogItem__init__ now s level).
Proof.
  intros H. apply write_level_Ok in H as (_ & Hp & _ & H).
  unfold target_buffer. rewrite Hp.
  destruct (paused self); destruct H as (H & _);
    apply append_truncate_Ok in H as [-> | ->]; reflexivity.
Qed.

(** Every item held after the call is the new one or was held before. *)
Lemma write_level_items now s level self self' item :
  write_level now s level self = Ok self' ->
  item ∈ all_items self' ->
  item = LogItem__init__ now s level \/ item ∈ all_items self.
Proof.
  intros H. apply write_level_Ok in H as (_ & _ & _ & H).
  unfold all_items. rewrite !elem_of_app.
  destruct (paused self).
  - destruct H as (Hb & -> & ->).
    intros [Hin|[Hin|Hin]]; auto.
    destruct (append_truncate_Ok_elem _ _ _ _ _ Hb Hin); auto.
  - destruct H as (Hb & -> & Hf).
    intros [Hin|[Hin|Hin]]; auto.
    + destruct (append_truncate_Ok_elem _ _ _ _ _ Hb Hin); auto.
    + destruct (matches_log_level_filter _ _).
      * destruct (append_truncate_Ok_elem _ _ _ _ _ Hf Hin); auto.
      * rewrite Hf in Hin. auto.
Qed.

(** With [max_len = None] no item can be appended. *)
Lemma write_level_max_len_None now s level self :
  max_len self = None ->
  write_level now s level self = Raise TypeError.
Proof.
  intros Hml. unfold write_level.
  destruct (paused self); rewrite append_truncate_None by exact Hml; reflexivity.
Qed.

Lemma write_max_len_None now s self :
  max_len self = None -> PyStr.isspace s = false ->
  write now s self = Raise TypeError.
Proof.
  intros Hml Hs. rewrite write_as_write_level by exact Hs.
  apply write_level_max_len_None. exact Hml.
Qed.

(** ** The filtered list *)

Lemma _log_level_filter_changed_consistent self :
  filter_consistent (_log_level_filter_changed self).
Proof. unfold filter_consistent. simpl. apply comprehension_filter. Qed.

(** An assignment that changes the threshold leaves the filtered list
    consistent; one that repeats it leaves the object as it is. *)
Lemma set_log_level_filter_Ok v self self' :
  set_log_level_filter v self = Ok self' ->
  log_level_filter self' = v /\
  unfiltered_list self' = unfiltered_list self /\
  (log_level_filter self <> v \/ filter_consistent self -> filter_consistent self').
Proof.
  unfold set_log_level_filter. case_bool_decide as Hv; [|discriminate].
  case_bool_decide as Hsame; intros Heq; injection Heq as <-.
  - split; [exact Hsame|]. split; [reflexivity|]. intros [Hne|Hc]; tauto.
  - split; [reflexivity|]. split; [reflexivity|]. intros _.
    apply _log_level_filter_changed_consistent.
Qed.

Lemma set_paused_false_consistent self :
  paused self = true -> filter_consistent (set_paused false self).
Proof.
  intros Hp. unfold set_paused. rewrite Hp. simpl.
  unfold filter_consistent. simpl. apply comprehension_filter.
Qed.

Lemma clear_consistent self : filter_consistent (clear self).
Proof. reflexivity. Qed.

(** An unpaused write that drops nothing from [unfiltered_list] keeps the
    filtered list consistent. *)
Lemma write_level_consistent_room now s level self n :
  max_len self = Some n ->
  paused self = false ->
  len (unfiltered_list self) <= n ->
  filter_consistent self ->
  exists self',
    write_level now s level self = Ok self' /\ filter_consistent self'.
Proof.
  intros Hml Hp Hlen Hc. unfold write_level. cbv zeta. rewrite Hp.
  set (log := LogItem__init__ now s level).
  rewrite (append_truncate_room self _ log n Hml Hlen). simpl.
  unfold filter_consistent in *.
  destruct (matches_log_level_filter log (log_level_filter self)) eqn:Hm.
  - rewrite (append_truncate_room
               (with_unfiltered_list (log :: unfiltered_list self) self)
               _ log n Hml).
    + eexists. split; [reflexivity|]. simpl.
      rewrite filter_cons, decide_True, Hc; [reflexivity|].
      apply matches_log_level_filter_spec. exact Hm.
    + rewrite Hc.
      pose proof (len_filter (log_level_filter self) (unfiltered_list self)). lia.
  - eexists. split; [reflexivity|]. simpl.
    rewrite filter_cons, decide_False; [exact Hc|].
    intros Hpass. apply matches_log_level_filter_spec in Hpass. congruence.
Qed.

(** The filtered list of a consistent object is a sublist of the
    unfiltered one: same items, same relative order. *)
Lemma filter_consistent_sublist self :
  filter_consistent self -> sublist (filtered_list self) (unfiltered_list self).
Proof. intros ->. apply sublist_filter. Qed.

(** ** Filling a buffer *)

(** While there is room, each unpaused [write_level] makes
    [unfiltered_list] one item longer. *)
Lemma run_flood_room n level k self :
  bounded n self -> paused self = false ->
  len (unfiltered_list self) + Z.of_nat k <= n + 1 ->
  exists self',
    run (flood level k) self = Ok self' /\ bounded n self' /\
    paused self' = false /\
    len (unfiltered_list self') = len (unfiltered_list self) + Z.of_nat k.
Proof.
  revert self. induction k as [|k IH]; intros self Hb Hp Hlen.
  - exists self. repeat split; try assumption; try apply Hb. lia.
  - destruct (write_level_bounded n "Nov 04 2026 12:00:00" "tick" (Some level) self Hb)
      as (self1 & Hw & Hb1).
    pose proof (write_level_Ok _ _ _ _ _ Hw) as (_ & Hp1 & _ & Hu).
    rewrite Hp in Hu, Hp1. destruct Hu as (Hu & _).
    rewrite (append_truncate_room self _ _ n) in Hu; [|apply Hb|lia].
    injection Hu as Hu.
    assert (len (unfiltered_list self1) = len (unfiltered_list self) + 1) as Hlen1.
    { rewrite <- Hu. apply len_cons. }
    destruct (IH self1 Hb1 Hp1) as (self' & Hrun & Hb' & Hp' & Hlen'); [lia|].
    exists self'. split; [|split; [exact Hb'|split; [exact Hp'|lia]]].
    change (flood level (S k)) with
      (WriteLevel "Nov 04 2026 12:00:00" "tick" (Some level) :: flood level k).
    simpl. rewrite Hw. exact Hrun.
Qed.

(** For every [max_len = n >= 0], [n + 1] writes leave [n + 1] items in
    [unfiltered_list]: the bound of [bounded] is reached. *)
Lemma flood_exceeds_max_len n level :
  0 <= n ->
  exists self,
    run (flood level (Z.to_nat (n + 1))) (set_max_len (Some n) OutputList__init__)
      = Ok self /\
    len (unfiltered_list self) = n + 1.
Proof.
  intros Hn.
  destruct (run_flood_room n level (Z.to_nat (n + 1))
              (set_max_len (Some n) OutputList__init__))
    as (self & Hrun & _ & _ & Hlen).
  - apply init_bounded. exact Hn.
  - reflexivity.
  - simpl. unfold len. simpl. lia.
  - exists self. split; [exact Hrun|]. rewrite Hlen. unfold len. simpl. lia.
Qed.

(** * The claims *)

(** C1 (fails on the code).  The claim: after every unpaused write,
    [filtered_list] is the items of [unfiltered_list] that pass the
    threshold.  On an [OutputList] with [max_len = 1] and the threshold at
    [LOG_ERROR], writing "a" at [LOG_ERROR] and then "b" and "c" at
    [LOG_DEBUG] returns, and leaves "a" in [filtered_list] although the third
    write dropped it from [unfiltered_list], none of whose items pass:
    the state is reachable, not paused, and not [filter_consistent]. *)
Theorem filtered_list_keeps_dropped_item :
  let t := "Nov 04 2026 12:00:00"%string in
  exists self,
    run [WriteLevel t "a" (Some LOG_ERROR);
         WriteLevel t "b" (Some LOG_DEBUG);
         WriteLevel t "c" (Some LOG_DEBUG)]
        (set_max_len (Some 1) OutputList__init__) = Ok self /\
    reachable (Some 1) self /\
    paused self = false /\
    unfiltered_list self = [mkLogItem LOG_DEBUG t "c"; mkLogItem LOG_DEBUG t "b"] /\
    filtered_list self = [mkLogItem LOG_ERROR t "a"] /\
    filter (passes (log_level_filter self)) (unfiltered_list self) = [] /\
    ~ filter_consistent self.
Proof.
  intros t. eexists. split; [vm_compute; reflexivity|].
  split.
  - apply (run_reachable (Some 1)
             [WriteLevel t "a" (Some LOG_ERROR);
              WriteLevel t "b" (Some LOG_DEBUG);
              WriteLevel t "c" (Some LOG_DEBUG)]
             (set_max_len (Some 1) OutputList__init__));
      [constructor|vm_compute; reflexivity].
  - repeat split. intros Hc. discriminate Hc.
Qed.

(** The same with the default [max_len] of 250: one "ERROR: ..." line
    followed by 251 debug lines. *)
Lemma default_max_len_keeps_dropped_item :
  exists self,
    run (WriteLevel "Nov 04 2026 12:00:00" "ERROR: disk full" None
         :: flood LOG_DEBUG 251) OutputList__init__ = Ok self /\
    filtered_list self =
      [mkLogItem LOG_ERROR "Nov 04 2026 12:00:00" "ERROR: disk full"] /\
    filter (passes (log_level_filter self)) (unfiltered_list self) = [] /\
    len (unfiltered_list self) = 251.
Proof.
  eexists. split; [vm_compute; reflexivity|].
  split; [reflexivity|]. split; vm_compute; reflexivity.
Qed.

(** C2 (fails on the code).  The claim: with [max_len = n > 0] set, no
    buffer is longer than [n] after a write.  With [max_len = 1], two
    writes return and leave two items in [unfiltered_list]; after
    [paused = True], two writes leave two items in [_paused_buffer]:
    [append_truncate] tests the length before it inserts, so a buffer
    holds [max_len + 1] items. *)
Theorem buffers_hold_max_len_plus_one :
  let t := "Nov 04 2026 12:00:00"%string in
  let self0 := set_max_len (Some 1) OutputList__init__ in
  (exists self,
     run [Write t "a"; Write t "b"] self0 = Ok self /\
     max_len self = Some 1 /\
     len (unfiltered_list self) = 2) /\
  (exists self,
     run [SetPaused true; Write t "a"; Write t "b"] self0 = Ok self /\
     max_len self = Some 1 /\
     len (_paused_buffer self) = 2).
Proof.
  intros t self0. split; eexists; (split; [vm_compute; reflexivity|]);
    split; reflexivity.
Qed.

(** C3 (fails on the code).  The claim: with [max_len = None] every write
    returns and nothing is dropped.  On a new [OutputList] with
    [max_len = None], [write("a")] and [write_level("a")] raise
    [TypeError], paused or not: [len(buffer) > None] holds in Python 2 and
    [len(buffer) - None] raises. *)
Theorem max_len_None_write_raises :
  let t := "Nov 04 2026 12:00:00"%string in
  let self0 := set_max_len None OutputList__init__ in
  write t "a" self0 = Raise TypeError /\
  write_level t "a" None self0 = Raise TypeError /\
  write_level t "a" (Some LOG_INFO) self0 = Raise TypeError /\
  write t "a" (set_paused true self0) = Raise TypeError.
Proof. intros t self0. repeat split. Qed.

(** C4.  While [paused] is [True], a returning [write_level], and a
    returning [write] of a string that is not whitespace, put the new item
    in front of [_paused_buffer] through [append_truncate] and leave
    [unfiltered_list] and [filtered_list] as they were; a [write] of
    whitespace changes nothing; within the bound both calls return.  And
    setting [paused] from [False] to [True] makes [_paused_buffer] the
    contents of [unfiltered_list], so the first write of the pause lands on
    top of the history before it. *)
Theorem paused_writes_go_to_paused_buffer :
  (forall now s level self self',
     paused self = true ->
     write_level now s level self = Ok self' ->
     let log := LogItem__init__ now s level in
     append_truncate self (_paused_buffer self) log = Ok (_paused_buffer self') /\
     hd_error (_paused_buffer self') = Some log /\
     unfiltered_list self' = unfiltered_list self /\
     filtered_list self' = filtered_list self /\
     paused self' = true) /\
  (forall now s self self',
     paused self = true ->
     write now s self = Ok self' ->
     let log := LogItem__init__ now s (Some LOG_LEVEL_CONSOLE) in
     (if PyStr.isspace s then _paused_buffer self' = _paused_buffer self
      else append_truncate self (_paused_buffer self) log = Ok (_paused_buffer self') /\
           hd_error (_paused_buffer self') = Some log) /\
     unfiltered_list self' = unfiltered_list self /\
     filtered_list self' = filtered_list self /\
     paused self' = true) /\
  (forall n now s level self,
     paused self = true -> bounded n self ->
     (exists self', write_level now s level self = Ok self') /\
     (exists self', write now s self = Ok self')) /\
  (forall self,
     paused self = false ->
     let self1 := set_paused true self in
     paused self1 = true /\
     _paused_buffer self1 = unfiltered_list self /\
     unfiltered_list self1 = unfiltered_list self /\
     filtered_list self1 = filtered_list self /\
     forall now s level self2,
       write_level now s level self1 = Ok self2 ->
       exists history,
         _paused_buffer self2 = LogItem__init__ now s level :: history /\
         (history = unfiltered_list self \/
          history = removelast (unfiltered_list self))).
Proof.
  assert (forall now s level self self',
     paused self = true ->
     write_level now s level self = Ok self' ->
     append_truncate self (_paused_buffer self) (LogItem__init__ now s level)
       = Ok (_paused_buffer self') /\
     hd_error (_paused_buffer self') = Some (LogItem__init__ now s level) /\
     unfiltered_list self' = unfiltered_list self /\
     filtered_list self' = filtered_list self /\
     paused self' = true) as Hlevel.
  { intros now s level self self' Hp Hw.
    pose proof (write_level_head _ _ _ _ _ Hw) as Hhd.
    apply write_level_Ok in Hw as (_ & Hp' & _ & Hw).
    unfold target_buffer in Hhd. rewrite Hp in Hw, Hp'. rewrite Hp' in Hhd.
    destruct Hw as (Hb & Hu & Hf). auto 10. }
  split; [exact Hlevel|]. split; [|split].
  - intros now s self self' Hp Hw log.
    destruct (PyStr.isspace s) eqn:Hs.
    + rewrite write_isspace in Hw by exact Hs. injection Hw as <-. auto.
    + rewrite write_as_write_level in Hw by exact Hs.
      destruct (Hlevel _ _ _ _ _ Hp Hw) as (Hb & Hhd & Hu & Hf & Hp'). auto 10.
  - intros n now s level self _ Hb. split.
    + destruct (write_level_bounded n now s level self Hb) as (self' & Hw & _).
      exists self'. exact Hw.
    + destruct (write_bounded n now s self Hb) as (self' & Hw & _).
      exists self'. exact Hw.
  - intros self Hp self1.
    assert (self1 = with_paused_buffer (unfiltered_list self) (with_paused true self))
      as Hself1.
    { unfold self1, set_paused. rewrite Hp. reflexivity. }
    rewrite Hself1. repeat (split; [reflexivity|]).
    intros now s level self2 Hw.
    apply Hlevel in Hw as (Hb & _); [|reflexivity].
    apply append_truncate_Ok in Hb as [Hb|Hb]; rewrite Hb; eexists; split;
      try reflexivity; [left|right]; reflexivity.
Qed.

Lemma paused_writes_go_to_paused_buffer_witness :
  let t := "Nov 04 2026 12:00:00"%string in
  let self := set_paused true (set_max_len (Some 1) OutputList__init__) in
  let self' := with_paused_buffer [mkLogItem LOG_INFO t "up"] self in
  paused self = true /\
  write_level t "up" (Some LOG_INFO) self = Ok self' /\
  unfiltered_list self' = unfiltered_list self /\
  filtered_list self' = filtered_list self.
Proof.
  intros t self self'.
  split; [reflexivity|]. split; [reflexivity|].
  destruct paused_writes_go_to_paused_buffer as (Hlevel & _).
  destruct (Hlevel t "up"%string (Some LOG_INFO) self self' eq_refl eq_refl)
    as (_ & _ & Hu & Hf & _).
  split; [exact Hu|exact Hf].
Defined.

(** C5.  Setting [paused] from [True] to [False] makes [unfiltered_list]
    the contents [_paused_buffer] had, recomputes [filtered_list] from the
    new [unfiltered_list] with the threshold unchanged, and empties
    [_paused_buffer]. *)
Theorem unpause_installs_paused_buffer self :
  paused self = true ->
  let self' := set_paused false self in
  self' = _paused_changed (with_paused false self) /\
  unfiltered_list self' = _paused_buffer self /\
  filtered_list self' =
    filter (passes (log_level_filter self)) (unfiltered_list self') /\
  sublist (filtered_list self') (_paused_buffer self) /\
  _paused_buffer self' = [] /\
  log_level_filter self' = log_level_filter self /\
  max_len self' = max_len self /\
  paused self' = false.
Proof.
  intros Hp self'.
  assert (self' = _paused_changed (with_paused false self)) as Heq.
  { unfold self', set_paused. rewrite Hp. reflexivity. }
  split; [exact Heq|]. rewrite Heq. simpl.
  rewrite comprehension_filter.
  repeat (split; [reflexivity|]).
  split; [apply sublist_filter|]. repeat split.
Qed.

Lemma unpause_installs_paused_buffer_witness :
  let t := "Nov 04 2026 12:00:00"%string in
  let self :=
    {| unfiltered_list := [mkLogItem LOG_ERROR t "old"];
       _paused_buffer := [mkLogItem LOG_DEBUG t "new"; mkLogItem LOG_ERROR t "old"];
       filtered_list := [mkLogItem LOG_ERROR t "old"];
       log_level_filter := LOG_WARN;
       max_len := Some DEFAULT_MAX_LEN;
       paused := true |} in
  paused self = true /\
  unfiltered_list (set_paused false self) = _paused_buffer self /\
  filtered_list (set_paused false self) = [mkLogItem LOG_ERROR t "old"] /\
  _paused_buffer (set_paused false self) = [].
Proof.
  intros t self. split; [reflexivity|].
  destruct (unpause_installs_paused_buffer self eq_refl)
    as (_ & Hu & Hf & _ & Hb & _).
  split; [exact Hu|]. split; [|exact Hb].
  rewrite Hf, Hu. reflexivity.
Defined.

(** C6.  [write_level(s)] without a level puts in front of the target
    buffer the item [LogItem(s)], and returns within the bound; the level
    of the item is decided by the text [p] of [s] before its first colon: [LOG_ERROR], [LOG_WARN], [LOG_INFO] or
    [LOG_DEBUG] when [p] is "ERROR", "WARNING", "INFO" or "DEBUG" up to case,
    and [LOG_LEVEL_DEFAULT] = -2 otherwise.  For "ERROR: disk full" the
    level is [LOG_ERROR] = 3 and the label "ERROR". *)
Theorem write_level_infers_level now s p :
  before_first_colon s p ->
  let item := LogItem__init__ now s None in
  (forall self self',
     write_level now s None self = Ok self' ->
     hd_error (target_buffer self') = Some item) /\
  (forall n self,
     bounded n self -> exists self', write_level now s None self = Ok self') /\
  (eq_nocase p "ERROR" -> log_level item = LOG_ERROR) /\
  (eq_nocase p "WARNING" -> log_level item = LOG_WARN) /\
  (eq_nocase p "INFO" -> log_level item = LOG_INFO) /\
  (eq_nocase p "DEBUG" -> log_level item = LOG_DEBUG) /\
  (~ eq_nocase p "ERROR" -> ~ eq_nocase p "WARNING" ->
   ~ eq_nocase p "INFO" -> ~ eq_nocase p "DEBUG" ->
   log_level item = LOG_LEVEL_DEFAULT) /\
  LOG_LEVEL_DEFAULT = -2 /\
  log_level (LogItem__init__ now "ERROR: disk full" None) = 3 /\
  log_level_str (LogItem__init__ now "ERROR: disk full" None) = "ERROR"%string.
Proof.
  intros Hp item.
  assert (log_level item =
          infer_loop p (map_to_list SYSLOG_LEVELS) LOG_LEVEL_DEFAULT) as Hlevel.
  { unfold item, LogItem__init__. simpl. f_equal.
    apply (before_first_colon_unique s); [|exact Hp].
    apply split_before_first_colon. }
  split; [intros self self'; apply write_level_head|].
  split.
  { intros n self Hb.
    destruct (write_level_bounded n now s None self Hb) as (self' & Hw & _).
    exists self'. exact Hw. }
  rewrite Hlevel.
  split; [intros Hm; exact (inferred_level_match p LOG_ERROR _ eq_refl Hm)|].
  split; [intros Hm; exact (inferred_level_match p LOG_WARN _ eq_refl Hm)|].
  split; [intros Hm; exact (inferred_level_match p LOG_INFO _ eq_refl Hm)|].
  split; [intros Hm; exact (inferred_level_match p LOG_DEBUG _ eq_refl Hm)|].
  split.
  - intros He Hw Hi Hd. apply inferred_level_no_match.
    intros key value Hkv. apply SYSLOG_LEVELS_lookup in Hkv.
    destruct Hkv as [[_ ->]|[[_ ->]|[[_ ->]|[_ ->]]]]; assumption.
  - split; [reflexivity|]. split; vm_compute; reflexivity.
Qed.

Lemma write_level_infers_level_witness :
  let t := "Nov 04 2026 12:00:00"%string in
  before_first_colon "Warning: low battery" "Warning" /\
  log_level (LogItem__init__ t "Warning: low battery" None) = LOG_WARN.
Proof.
  intros t.
  assert (before_first_colon "Warning: low battery" "Warning") as Hp.
  { split; [|right; exists " low battery"%string; reflexivity].
    simpl. intros H. repeat (destruct H as [H|H]; [discriminate H|]). exact H. }
  split; [exact Hp|].
  destruct (write_level_infers_level t _ _ Hp) as (_ & _ & _ & Hw & _).
  apply Hw. apply lower_eq_nocase. reflexivity.
Defined.

(** C7.  When [write(s)] returns, every item the object holds either was
    held before or has the level [LOG_LEVEL_CONSOLE] = -1; and when [s] is
    not whitespace the item in front of the target buffer is
    [LogItem(s, LOG_LEVEL_CONSOLE)], of level -1 whatever [s] says, with the
    text of [s] less its trailing newlines.  Within the bound the call
    returns. *)
Theorem write_items_are_console now s self :
  (forall self',
     write now s self = Ok self' ->
     (forall item, item ∈ all_items self' ->
        item ∈ all_items self \/ log_level item = LOG_LEVEL_CONSOLE) /\
     (PyStr.isspace s = false ->
      exists item,
        hd_error (target_buffer self') = Some item /\
        log_level item = LOG_LEVEL_CONSOLE /\
        msg item = PyStr.rstrip "010" s /\
        timestamp item = now)) /\
  (forall n, bounded n self -> exists self', write now s self = Ok self') /\
  LOG_LEVEL_CONSOLE = -1.
Proof.
  split; [|split; [|reflexivity]].
  - intros self' Hw. destruct (PyStr.isspace s) eqn:Hs.
    + rewrite write_isspace in Hw by exact Hs. injection Hw as <-.
      split; [auto|discriminate].
    + rewrite write_as_write_level in Hw by exact Hs. split.
      * intros item Hin.
        destruct (write_level_items _ _ _ _ _ _ Hw Hin) as [->|Hold]; auto.
      * intros _. eexists. split; [exact (write_level_head _ _ _ _ _ Hw)|].
        repeat split.
  - intros n Hb. destruct (write_bounded n now s self Hb) as (self' & Hw & _).
    exists self'. exact Hw.
Qed.

Lemma write_items_are_console_witness :
  let t := "Nov 04 2026 12:00:00"%string in
  exists self',
    write t "ERROR: not a device message" OutputList__init__ = Ok self' /\
    log_level <$> hd_error (unfiltered_list self') = Some LOG_LEVEL_CONSOLE.
Proof.
  intros t. eexists. split; [reflexivity|].
  destruct (write_items_are_console t "ERROR: not a device message"
              OutputList__init__) as (Hret & _).
  destruct (Hret _ eq_refl) as (_ & Hhd).
  destruct (Hhd eq_refl) as (item & Hitem & Hlevel & _).
  change (hd_error (unfiltered_list ?x)) with (hd_error (target_buffer x)).
  rewrite Hitem. simpl. f_equal. exact Hlevel.
Defined.

(** C8.  [write(s)] of a string made of whitespace only (at least one
    character, each of them whitespace) returns with the object unchanged:
    [unfiltered_list], [filtered_list] and [_paused_buffer] among the rest.
    So for three spaces followed by a newline. *)
Theorem write_whitespace_is_ignored now s self :
  whitespace_only s ->
  write now s self = Ok self /\
  write now (String " " (String " " (String " " (String "010" EmptyString)))) self
    = Ok self.
Proof.
  intros Hs. split; [|reflexivity].
  apply write_isspace. apply isspace_spec. exact Hs.
Qed.

Lemma write_whitespace_is_ignored_witness :
  let t := "Nov 04 2026 12:00:00"%string in
  let s := String "009" (String "010" (String " " EmptyString)) in
  whitespace_only s /\
  write t s OutputList__init__ = Ok OutputList__init__.
Proof.
  intros t s.
  assert (whitespace_only s) as Hs.
  { split; [discriminate|].
    intros c [<-|[<-|[<-|[]]]]; unfold whitespace_char; simpl; tauto. }
  split; [exact Hs|].
  exact (proj1 (write_whitespace_is_ignored t s OutputList__init__ Hs)).
Defined.

(** C9.  An item of level [LOG_LEVEL_CONSOLE] passes each of the four
    thresholds the [Enum] admits, so a [write] of a string that is not
    whitespace on an object that is not paused puts its item in front of
    [filtered_list] as well as of [unfiltered_list], through
    [append_truncate]; within the bound the call returns. *)
Theorem console_items_pass_every_filter now s thr :
  thr = LOG_ERROR \/ thr = LOG_WARN \/ thr = LOG_INFO \/ thr = LOG_DEBUG ->
  let log := LogItem__init__ now s (Some LOG_LEVEL_CONSOLE) in
  matches_log_level_filter log thr = true /\
  (forall self self',
     log_level_filter self = thr ->
     paused self = false ->
     PyStr.isspace s = false ->
     write now s self = Ok self' ->
     append_truncate self (filtered_list self) log = Ok (filtered_list self') /\
     hd_error (filtered_list self') = Some log /\
     hd_error (unfiltered_list self') = Some log) /\
  (forall n self,
     log_level_filter self = thr ->
     paused self = false ->
     PyStr.isspace s = false ->
     bounded n self ->
     exists self', write now s self = Ok self').
Proof.
  intros Hthr log.
  assert (matches_log_level_filter log thr = true) as Hm.
  { destruct Hthr as [->|[->|[->| ->]]]; reflexivity. }
  split; [exact Hm|]. split.
  - intros self self' Hf Hp Hs Hw.
    rewrite write_as_write_level in Hw by exact Hs.
    apply write_level_Ok in Hw as (_ & _ & _ & Hw).
    rewrite Hp, Hf in Hw. fold log in Hw. rewrite Hm in Hw.
    destruct Hw as (Hu & _ & Hfl).
    split; [exact Hfl|].
    apply append_truncate_Ok in Hu as [-> | ->];
      apply append_truncate_Ok in Hfl as [-> | ->]; split; reflexivity.
  - intros n self _ _ _ Hb.
    destruct (write_bounded n now s self Hb) as (self' & Hw & _).
    exists self'. exact Hw.
Qed.

Lemma console_items_pass_every_filter_witness :
  let t := "Nov 04 2026 12:00:00"%string in
  exists self',
    write t "hello" OutputList__init__ = Ok self' /\
    hd_error (filtered_list self') = Some (mkLogItem LOG_LEVEL_CONSOLE t "hello").
Proof.
  intros t. eexists. split; [reflexivity|].
  destruct (console_items_pass_every_filter t "hello" LOG_ERROR (or_introl eq_refl))
    as (_ & Hw & _).
  exact (proj1 (proj2 (Hw OutputList__init__ _ eq_refl eq_refl eq_refl eq_refl))).
Defined.

(** C10.  The empty string is not whitespace for [isspace()], so
    [write("")] is not ignored: when it returns, the item of level
    [LOG_LEVEL_CONSOLE] with the empty message is in front of the target
    buffer; within the bound it returns; and on a new [OutputList] it leaves
    this one item in [unfiltered_list] and in [filtered_list]. *)
Theorem write_empty_string_makes_an_item now :
  PyStr.isspace "" = false /\
  (forall self self',
     write now "" self = Ok self' ->
     hd_error (target_buffer self') = Some (mkLogItem LOG_LEVEL_CONSOLE now "")) /\
  (forall n self, bounded n self -> exists self', write now "" self = Ok self') /\
  write now "" OutputList__init__ =
    Ok (with_filtered_list [mkLogItem LOG_LEVEL_CONSOLE now ""]
         (with_unfiltered_list [mkLogItem LOG_LEVEL_CONSOLE now ""]
            OutputList__init__)).
Proof.
  split; [reflexivity|]. split; [|split; [|reflexivity]].
  - intros self self' Hw.
    rewrite write_as_write_level in Hw by reflexivity.
    exact (write_level_head _ _ _ _ _ Hw).
  - intros n self Hb.
    destruct (write_bounded n now "" self Hb) as (self' & Hw & _).
    exists self'. exact Hw.
Qed.

Lemma write_empty_string_makes_an_item_witness :
  let t := "Nov 04 2026 12:00:00"%string in
  exists self',
    write t "" OutputList__init__ = Ok self' /\
    unfiltered_list self' = [mkLogItem LOG_LEVEL_CONSOLE t ""].
Proof.
  intros t.
  destruct (write_empty_string_makes_an_item t) as (_ & _ & _ & Hw).
  eexists. split; [exact Hw|reflexivity].
Defined.

(** * Further properties of the code *)

(** ** Labels and inferred levels *)

Lemma LogItem__init__inferred now s p :
  before_first_colon s p ->
  log_level (LogItem__init__ now s None) =
  infer_loop p (map_to_list SYSLOG_LEVELS) LOG_LEVEL_DEFAULT.
Proof.
  intros Hp. unfold LogItem__init__. simpl. f_equal.
  apply (before_first_colon_unique s); [|exact Hp].
  apply split_before_first_colon.
Qed.

Lemma chars_lower c s :
  In c (chars s) -> In (PyStr.lower_char c) (chars (PyStr.lower s)).
Proof.
  induction s as [|a s IH]; simpl; [tauto|].
  intros [->|Hin]; [left; reflexivity|right; apply IH; exact Hin].
Qed.

Lemma SYSLOG_LEVELS_label_no_colon key value p :
  SYSLOG_LEVELS !! key = Some value -> eq_nocase p value ->
  ~ In ":"%char (chars p).
Proof.
  intros Hkv Hm Hin. apply lower_eq_nocase in Hm.
  apply chars_lower in Hin. rewrite Hm in Hin.
  apply SYSLOG_LEVELS_lookup in Hkv.
  destruct Hkv as [[_ ->]|[[_ ->]|[[_ ->]|[_ ->]]]]; simpl in Hin;
    repeat (destruct Hin as [Hin|Hin]; [discriminate Hin|]); exact Hin.
Qed.

Lemma SYSLOG_LEVELS_in_ALL key value :
  SYSLOG_LEVELS !! key = Some value -> ALL_LOG_LEVELS !! key = Some value.
Proof.
  intros Hkv. apply SYSLOG_LEVELS_lookup in Hkv.
  destruct Hkv as [[-> ->]|[[-> ->]|[[-> ->]|[-> ->]]]]; reflexivity.
Qed.

(** X1.  The label of a level and the level of a label agree: for every
    entry [key: value] of [SYSLOG_LEVELS], a message that starts with
    [value] in any mix of cases, alone or followed by a colon and any
    text, is given the level [key] and is displayed with the label
    [value]. *)
Theorem label_level_round_trip now key value p rest :
  SYSLOG_LEVELS !! key = Some value ->
  eq_nocase p value ->
  let item := LogItem__init__ now (p ++ String ":" rest) None in
  let bare := LogItem__init__ now p None in
  log_level item = key /\ log_level_str item = value /\
  log_level bare = key /\ log_level_str bare = value.
Proof.
  intros Hkv Hm item bare.
  pose proof (SYSLOG_LEVELS_label_no_colon key value p Hkv Hm) as Hno.
  assert (log_level item = key) as Hitem.
  { unfold item. rewrite (LogItem__init__inferred now _ p).
    - exact (inferred_level_match p key value Hkv Hm).
    - split; [exact Hno|right; exists rest; reflexivity]. }
  assert (log_level bare = key) as Hbare.
  { unfold bare. rewrite (LogItem__init__inferred now _ p).
    - exact (inferred_level_match p key value Hkv Hm).
    - split; [exact Hno|left; reflexivity]. }
  unfold log_level_str. rewrite Hitem, Hbare.
  rewrite (SYSLOG_LEVELS_in_ALL key value Hkv). auto.
Qed.

Lemma label_level_round_trip_witness :
  let item := LogItem__init__ "Nov 04 2026 12:00:00" "dEbUg:probe" None in
  SYSLOG_LEVELS !! LOG_DEBUG = Some "DEBUG"%string /\
  eq_nocase "dEbUg" "DEBUG" /\
  log_level item = LOG_DEBUG /\ log_level_str item = "DEBUG"%string.
Proof.
  intros item.
  assert (eq_nocase "dEbUg" "DEBUG") as Hm by (apply lower_eq_nocase; reflexivity).
  split; [reflexivity|]. split; [exact Hm|].
  destruct (label_level_round_trip "Nov 04 2026 12:00:00" LOG_DEBUG "DEBUG" "dEbUg"
              "probe" eq_refl Hm) as (Hl & Hs & _).
  split; [exact Hl|exact Hs].
Defined.

Lemma infer_loop_range first items acc :
  infer_loop first items acc = acc \/
  infer_loop first items acc ∈ items.*1.
Proof.
  revert acc. induction items as [|[key value] items IH]; intros acc;
    [left; reflexivity|].
  rewrite infer_loop_cons, fmap_cons. simpl.
  destruct (String.eqb (PyStr.lower first) (PyStr.lower value)).
  - destruct (IH key) as [->|Hin]; right; [left|right; exact Hin].
  - destruct (IH acc) as [->|Hin]; [left; reflexivity|right; right; exact Hin].
Qed.

(** X2.  A level that [LogItem] infers is one of the four keys of
    [SYSLOG_LEVELS] or [LOG_LEVEL_DEFAULT], whatever the message: never
    [LOG_LEVEL_CONSOLE], so an item made by [write_level] without a level
    is never displayed as "CONSOLE", and it is displayed as "UNKNOWN"
    exactly when no label was recognised. *)
Theorem inferred_level_range now s :
  let item := LogItem__init__ now s None in
  (log_level item = LOG_ERROR \/ log_level item = LOG_WARN \/
   log_level item = LOG_INFO \/ log_level item = LOG_DEBUG \/
   log_level item = LOG_LEVEL_DEFAULT) /\
  log_level item <> LOG_LEVEL_CONSOLE /\
  log_level_str item <> "CONSOLE"%string /\
  (log_level_str item = "UNKNOWN"%string <-> log_level item = LOG_LEVEL_DEFAULT).
Proof.
  intros item.
  assert (log_level item = LOG_ERROR \/ log_level item = LOG_WARN \/
          log_level item = LOG_INFO \/ log_level item = LOG_DEBUG \/
          log_level item = LOG_LEVEL_DEFAULT) as Hrange.
  { unfold item.
    rewrite (LogItem__init__inferred now s _ (split_before_first_colon s)).
    destruct (infer_loop_range (hd EmptyString (PyStr.split ":" s))
                (map_to_list SYSLOG_LEVELS) LOG_LEVEL_DEFAULT) as [->|Hin];
      [tauto|].
    apply list_elem_of_fmap in Hin as ([key value] & -> & Hin).
    apply elem_of_map_to_list, SYSLOG_LEVELS_lookup in Hin. simpl. tauto. }
  split; [exact Hrange|]. unfold log_level_str.
  destruct Hrange as [->|[->|[->|[->| ->]]]]; vm_compute;
    repeat split; intros; try discriminate; try reflexivity.
Qed.

Lemma same_letter_is_letter a b : same_letter a b -> is_letter b -> is_letter a.
Proof.
  unfold same_letter, capital_of, is_letter.
  intros [->|[[Hb Hab]|[Ha Hba]]] Hl; [exact Hl|lia|lia].
Qed.

Lemma eq_nocase_letters p value c :
  eq_nocase p value ->
  (forall c', In c' (chars value) -> is_letter c') ->
  In c (chars p) -> is_letter c.
Proof.
  induction 1 as [|a b s t Hab _ IH]; intros Hv Hin; [destruct Hin|].
  simpl in Hin. destruct Hin as [<-|Hin].
  - apply (same_letter_is_letter a b Hab). apply Hv. left. reflexivity.
  - apply IH; [|exact Hin]. intros c' Hc'. apply Hv. right. exact Hc'.
Qed.

Lemma SYSLOG_LEVELS_label_letters key value c :
  SYSLOG_LEVELS !! key = Some value -> In c (chars value) -> is_letter c.
Proof.
  intros Hkv Hin. apply SYSLOG_LEVELS_lookup in Hkv. unfold is_letter.
  destruct Hkv as [[_ ->]|[[_ ->]|[[_ ->]|[_ ->]]]]; simpl in Hin;
    repeat (destruct Hin as [<-|Hin]; [vm_compute; lia|]); destruct Hin.
Qed.

(** The text before the first colon is compared as it stands. *)
Lemma not_letter_no_match p c :
  In c (chars p) -> ~ is_letter c ->
  infer_loop p (map_to_list SYSLOG_LEVELS) LOG_LEVEL_DEFAULT = LOG_LEVEL_DEFAULT.
Proof.
  intros Hin Hc. apply inferred_level_no_match. intros key value Hkv Hm.
  apply Hc. apply (eq_nocase_letters p value c Hm); [|exact Hin].
  intros c'. apply (SYSLOG_LEVELS_label_letters key value c' Hkv).
Qed.

(** X3.  The inference does not trim or parse: when the text before the
    first colon holds any character that is not an ASCII letter (a space
    before or after the label, a bracket, a newline), or is empty, the level
    is [LOG_LEVEL_DEFAULT] and the label "UNKNOWN". *)
Theorem inference_needs_bare_label now s p :
  before_first_colon s p ->
  p = EmptyString \/ (exists c, In c (chars p) /\ ~ is_letter c) ->
  log_level (LogItem__init__ now s None) = LOG_LEVEL_DEFAULT /\
  log_level_str (LogItem__init__ now s None) = "UNKNOWN"%string.
Proof.
  intros Hp Hbad.
  assert (log_level (LogItem__init__ now s None) = LOG_LEVEL_DEFAULT) as Hl.
  { rewrite (LogItem__init__inferred now s p Hp).
    destruct Hbad as [->|(c & Hin & Hc)].
    - apply inferred_level_no_match. intros key value Hkv Hm.
      apply SYSLOG_LEVELS_lookup in Hkv.
      destruct Hkv as [[_ ->]|[[_ ->]|[[_ ->]|[_ ->]]]]; inversion Hm.
    - exact (not_letter_no_match p c Hin Hc). }
  split; [exact Hl|]. unfold log_level_str. rewrite Hl. reflexivity.
Qed.

Lemma inference_needs_bare_label_witness :
  before_first_colon " ERROR: disk full" " ERROR" /\
  log_level (LogItem__init__ "Nov 04 2026 12:00:00" " ERROR: disk full" None)
    = LOG_LEVEL_DEFAULT.
Proof.
  assert (before_first_colon " ERROR: disk full" " ERROR") as Hp.
  { split; [|right; exists " disk full"%string; reflexivity].
    simpl. intros H. repeat (destruct H as [H|H]; [discriminate H|]). exact H. }
  split; [exact Hp|].
  apply (inference_needs_bare_label "Nov 04 2026 12:00:00" _ _ Hp).
  right. exists " "%char. split; [left; reflexivity|].
  unfold is_letter. intros H. vm_compute in H. lia.
Defined.

(** X16.  The inferred level does not depend on the order in which the
    dict is iterated: the loop has no [break], but the labels differ
    pairwise up to case, so at most one iteration assigns.  In particular
    the order of CPython 2 gives the level of the model. *)
Theorem inference_ignores_iteration_order first items :
  items ≡ₚ SYSLOG_LEVELS_iteritems ->
  infer_loop first items LOG_LEVEL_DEFAULT =
  infer_loop first SYSLOG_LEVELS_iteritems LOG_LEVEL_DEFAULT /\
  infer_loop first items LOG_LEVEL_DEFAULT =
  infer_loop first (map_to_list SYSLOG_LEVELS) LOG_LEVEL_DEFAULT.
Proof.
  intros Hperm.
  assert (SYSLOG_LEVELS_iteritems ≡ₚ map_to_list SYSLOG_LEVELS) as Hmodel.
  { apply NoDup_Permutation.
    - apply (bool_decide_unpack _). vm_compute. exact I.
    - apply NoDup_map_to_list.
    - intros [key value]. rewrite elem_of_map_to_list, SYSLOG_LEVELS_lookup.
      unfold SYSLOG_LEVELS_iteritems. rewrite !elem_of_cons, elem_of_nil.
      split.
      + intros [H|[H|[H|[H|[]]]]]; injection H as -> ->; tauto.
      + intros [[-> ->]|[[-> ->]|[[-> ->]|[-> ->]]]]; tauto. }
  split.
  - rewrite (inferred_level_any_order first items); [|rewrite Hperm; exact Hmodel].
    symmetry. apply inferred_level_any_order. exact Hmodel.
  - apply inferred_level_any_order. rewrite Hperm. exact Hmodel.
Qed.

Lemma inference_ignores_iteration_order_witness :
  let items := [(LOG_DEBUG, "DEBUG"%string); (LOG_INFO, "INFO"%string);
                (LOG_WARN, "WARNING"%string); (LOG_ERROR, "ERROR"%string)] in
  items ≡ₚ SYSLOG_LEVELS_iteritems /\
  infer_loop "info" items LOG_LEVEL_DEFAULT =
  infer_loop "info" SYSLOG_LEVELS_iteritems LOG_LEVEL_DEFAULT.
Proof.
  intros items.
  assert (items ≡ₚ SYSLOG_LEVELS_iteritems) as Hperm.
  { unfold items, SYSLOG_LEVELS_iteritems.
    apply (reverse_Permutation
      [(LOG_ERROR, "ERROR"%string); (LOG_WARN, "WARNING"%string);
       (LOG_INFO, "INFO"%string); (LOG_DEBUG, "DEBUG"%string)]). }
  split; [exact Hperm|].
  exact (proj1 (inference_ignores_iteration_order "info" items Hperm)).
Defined.

(** ** The message text *)

Lemma rstrip_String ch c s :
  PyStr.rstrip ch (String c s) =
  match PyStr.rstrip ch s with
  | EmptyString => if Ascii.eqb c ch then EmptyString else String c EmptyString
  | r => String c r
  end.
Proof. reflexivity. Qed.

Lemma rstrip_newlines s :
  exists k, s = (PyStr.rstrip "010" s ++ newlines k)%string.
Proof.
  induction s as [|c s [k IH]]; [exists O; reflexivity|].
  rewrite rstrip_String.
  destruct (PyStr.rstrip "010" s) as [|d r] eqn:Hr.
  - rewrite append_Empty in IH.
    destruct (Ascii.eqb_spec c "010") as [->|_].
    + exists (S k). rewrite append_Empty. simpl. congruence.
    + exists k. rewrite append_String, append_Empty. congruence.
  - exists k. rewrite append_String. congruence.
Qed.

Lemma rstrip_no_trailing_newline s : ~ ends_with_newline (PyStr.rstrip "010" s).
Proof.
  induction s as [|c s IH]; intros [t Ht].
  - destruct t; rewrite ?append_Empty, ?append_String in Ht; discriminate Ht.
  - rewrite rstrip_String in Ht.
    destruct (PyStr.rstrip "010" s) as [|d r] eqn:Hr.
    + destruct (Ascii.eqb_spec c "010") as [->|Hc].
      * destruct t; rewrite ?append_Empty, ?append_String in Ht; discriminate Ht.
      * destruct t as [|a t]; rewrite ?append_Empty, ?append_String in Ht.
        -- congruence.
        -- injection Ht as _ Ht.
           destruct t; rewrite ?append_Empty, ?append_String in Ht;
             discriminate Ht.
    + destruct t as [|a t]; rewrite ?append_Empty, ?append_String in Ht.
      * discriminate Ht.
      * injection Ht as _ Ht. apply IH. exists t. exact Ht.
Qed.

Lemma append_Empty_r s : (s ++ EmptyString)%string = s.
Proof.
  induction s as [|c s IH]; [reflexivity|].
  rewrite append_String, IH. reflexivity.
Qed.

Lemma append_assoc' s t u : ((s ++ t) ++ u)%string = (s ++ (t ++ u))%string.
Proof.
  induction s as [|c s IH]; [reflexivity|].
  rewrite !append_String, IH. reflexivity.
Qed.

Lemma newlines_snoc k :
  newlines (S k) = (newlines k ++ String "010" EmptyString)%string.
Proof.
  induction k as [|k IH]; [reflexivity|].
  change (newlines (S (S k))) with (String "010" (newlines (S k))).
  rewrite IH at 1. reflexivity.
Qed.

(** X4.  The message of an item is the text written less its trailing
    newlines and nothing else: the text is the message followed by
    newlines only, the message does not end with a newline, and a text that
    does not end with a newline is kept as it is (inner newlines and
    trailing blanks stay). *)
Theorem msg_drops_trailing_newlines_only now s level :
  let m := msg (LogItem__init__ now s level) in
  (exists k, s = (m ++ newlines k)%string) /\
  ~ ends_with_newline m /\
  (~ ends_with_newline s -> m = s).
Proof.
  intros m.
  assert (m = PyStr.rstrip "010" s) as -> by reflexivity.
  split; [apply rstrip_newlines|]. split; [apply rstrip_no_trailing_newline|].
  intros Hs. destruct (rstrip_newlines s) as [[|k] Hk].
  - rewrite append_Empty_r in Hk. congruence.
  - exfalso. apply Hs. exists (PyStr.rstrip "010" s ++ newlines k)%string.
    rewrite append_assoc', <- newlines_snoc. exact Hk.
Qed.

(** ** Whitespace and unknown items *)

Lemma whitespace_char_not_letter c : whitespace_char c -> ~ is_letter c.
Proof.
  unfold whitespace_char, is_letter. simpl.
  intros [<-|[<-|[<-|[<-|[<-|[<-|[]]]]]]] H; vm_compute in H; lia.
Qed.

Lemma whitespace_char_not_colon c : whitespace_char c -> c <> ":"%char.
Proof.
  unfold whitespace_char. simpl.
  intros [<-|[<-|[<-|[<-|[<-|[<-|[]]]]]]]; discriminate.
Qed.

(** X5.  [write_level] has no whitespace guard: a string of whitespace
    only, which [write] ignores, makes through [write_level] an item of level
    [LOG_LEVEL_DEFAULT], displayed as "UNKNOWN", in front of the target
    buffer. *)
Theorem write_level_keeps_whitespace n now s self :
  whitespace_only s ->
  bounded n self ->
  let item := LogItem__init__ now s None in
  write now s self = Ok self /\
  log_level item = LOG_LEVEL_DEFAULT /\
  log_level_str item = "UNKNOWN"%string /\
  exists self',
    write_level now s None self = Ok self' /\
    hd_error (target_buffer self') = Some item.
Proof.
  intros Hs Hb item.
  split; [apply write_isspace, isspace_spec; exact Hs|].
  destruct Hs as [Hne Hws].
  assert (log_level item = LOG_LEVEL_DEFAULT) as Hl.
  { unfold item. rewrite (LogItem__init__inferred now s s).
    - destruct s as [|c s]; [contradiction|].
      apply (not_letter_no_match _ c); [left; reflexivity|].
      apply whitespace_char_not_letter, Hws. left. reflexivity.
    - split; [|left; reflexivity].
      intros Hin. exact (whitespace_char_not_colon _ (Hws _ Hin) eq_refl). }
  split; [exact Hl|].
  split; [unfold log_level_str; rewrite Hl; reflexivity|].
  destruct (write_level_bounded n now s None self Hb) as (self' & Hw & _).
  exists self'. split; [exact Hw|exact (write_level_head _ _ _ _ _ Hw)].
Qed.

Lemma write_level_keeps_whitespace_witness :
  let t := "Nov 04 2026 12:00:00"%string in
  let s := String "010" EmptyString in
  whitespace_only s /\
  bounded DEFAULT_MAX_LEN OutputList__init__ /\
  write t s OutputList__init__ = Ok OutputList__init__ /\
  write_level t s None OutputList__init__ =
    Ok (with_filtered_list [mkLogItem LOG_LEVEL_DEFAULT t ""]
          (with_unfiltered_list [mkLogItem LOG_LEVEL_DEFAULT t ""]
             OutputList__init__)).
Proof.
  intros t s.
  assert (whitespace_only s) as Hs.
  { split; [discriminate|].
    intros c [<-|[]]. unfold whitespace_char. simpl. tauto. }
  assert (bounded DEFAULT_MAX_LEN OutputList__init__) as Hb.
  { repeat split; unfold len, DEFAULT_MAX_LEN; simpl; lia. }
  split; [exact Hs|]. split; [exact Hb|].
  destruct (write_level_keeps_whitespace DEFAULT_MAX_LEN t s OutputList__init__ Hs Hb)
    as (Hw & _).
  split; [exact Hw|reflexivity].
Defined.

(** X6.  Which items the filter can hide.  The thresholds the [Enum]
    admits run from [LOG_ERROR] to [LOG_DEBUG], so an item passes all of
    them exactly when its level is at most [LOG_ERROR] (console, unknown and
    error items), and none of them exactly when its level is above
    [LOG_DEBUG].  An unpaused [write_level] puts the former in front of
    [filtered_list] and keeps the latter out of it. *)
Theorem maskable_levels now s level :
  let item := LogItem__init__ now s level in
  ((forall thr, is_Some (SYSLOG_LEVELS !! thr) ->
      matches_log_level_filter item thr = true) <->
   log_level item <= LOG_ERROR) /\
  ((forall thr, is_Some (SYSLOG_LEVELS !! thr) ->
      matches_log_level_filter item thr = false) <->
   LOG_DEBUG < log_level item) /\
  (forall self self',
     is_Some (SYSLOG_LEVELS !! log_level_filter self) ->
     paused self = false ->
     write_level now s level self = Ok self' ->
     (log_level item <= LOG_ERROR -> hd_error (filtered_list self') = Some item) /\
     (LOG_DEBUG < log_level item -> filtered_list self' = filtered_list self)).
Proof.
  intros item.
  assert (forall thr, matches_log_level_filter item thr = true <->
                      log_level item <= thr) as Hm.
  { intros thr. apply matches_log_level_filter_spec. }
  assert (forall thr, matches_log_level_filter item thr = false <->
                      thr < log_level item) as Hm'.
  { intros thr. destruct (matches_log_level_filter item thr) eqn:E.
    - apply Hm in E. split; [discriminate|lia].
    - split; [intros _|reflexivity].
      destruct (Z.le_gt_cases (log_level item) thr) as [Hle|Hgt]; [|exact Hgt].
      apply Hm in Hle. congruence. }
  split; [|split].
  - split.
    + intros H. apply Hm, H. eexists. reflexivity.
    + intros Hle thr Hthr. apply Hm. apply SYSLOG_LEVELS_keys in Hthr.
      unfold LOG_ERROR, LOG_WARN, LOG_INFO, LOG_DEBUG in *. lia.
  - split.
    + intros H. apply Hm', H. eexists. reflexivity.
    + intros Hgt thr Hthr. apply Hm'. apply SYSLOG_LEVELS_keys in Hthr.
      unfold LOG_ERROR, LOG_WARN, LOG_INFO, LOG_DEBUG in *. lia.
  - intros self self' Hthr Hp Hw.
    apply write_level_Ok in Hw as (_ & _ & _ & Hw). rewrite Hp in Hw.
    destruct Hw as (_ & _ & Hf). fold item in Hf.
    apply SYSLOG_LEVELS_keys in Hthr. split.
    + intros Hle.
      assert (matches_log_level_filter item (log_level_filter self) = true) as E.
      { apply Hm. unfold LOG_ERROR, LOG_WARN, LOG_INFO, LOG_DEBUG in *. lia. }
      rewrite E in Hf. apply append_truncate_Ok in Hf as [-> | ->]; reflexivity.
    + intros Hgt.
      assert (matches_log_level_filter item (log_level_filter self) = false) as E.
      { apply Hm'. unfold LOG_ERROR, LOG_WARN, LOG_INFO, LOG_DEBUG in *. lia. }
      rewrite E in Hf. exact Hf.
Qed.

Lemma maskable_levels_witness :
  let t := "Nov 04 2026 12:00:00"%string in
  let self := with_log_level_filter LOG_DEBUG OutputList__init__ in
  exists self',
    write_level t "beyond debug" (Some 8) self = Ok self' /\
    unfiltered_list self' = [mkLogItem 8 t "beyond debug"] /\
    filtered_list self' = [].
Proof.
  intros t self. eexists. split; [reflexivity|]. split; [reflexivity|].
  destruct (maskable_levels t "beyond debug" (Some 8)) as (_ & _ & Hw).
  destruct (Hw self _ (ex_intro _ _ eq_refl) eq_refl eq_refl) as (_ & Hout).
  rewrite Hout; [reflexivity|]. unfold LOG_DEBUG. simpl. lia.
Defined.

(** ** Failures of the append path *)




(** X8.  Lowering [max_len] under the length of the target buffer by two
    or more makes every later call that creates an item fail its assertion:
    [append_truncate] drops one item per call at most and refuses to go on
    rather than truncate further. *)
Theorem lowered_max_len_fails_assertion m now s level self :
  m + 1 < len (target_buffer self) ->
  let self' := set_max_len (Some m) self in
  write_level now s level self' = Raise AssertionError /\
  write now s self' = (if PyStr.isspace s then Ok self' else Raise AssertionError).
Proof.
  intros Hlen self'.
  assert (forall lvl, write_level now s lvl self' = Raise AssertionError) as Hw.
  { intros lvl. unfold write_level. cbv zeta.
    unfold target_buffer in Hlen. simpl.
    destruct (paused self);
      rewrite (append_truncate_overlong self' _ _ m eq_refl Hlen); reflexivity. }
  split; [apply Hw|].
  destruct (PyStr.isspace s) eqn:Hs.
  - apply write_isspace. exact Hs.
  - rewrite write_as_write_level by exact Hs. apply Hw.
Qed.

Lemma lowered_max_len_fails_assertion_witness :
  let t := "Nov 04 2026 12:00:00"%string in
  exists self,
    run (flood LOG_ERROR 3) OutputList__init__ = Ok self /\
    0 + 1 < len (target_buffer self) /\
    write t "one more" (set_max_len (Some 0) self) = Raise AssertionError.
Proof.
  intros t. eexists. split; [vm_compute; reflexivity|].
  split; [unfold len; simpl; lia|].
  refine (proj2 (lowered_max_len_fails_assertion 0 t "one more" None _ _)).
  unfold len. simpl. lia.
Defined.

(** ** The bound that holds *)

(** X9.  On an [OutputList] built with [max_len = n >= 0], whatever was
    called before, every sequence of calls that assigns only admitted
    values to [log_level_filter] runs to the end without an exception, and
    leaves at most [n + 1] items in each of the three buffers. *)
Theorem calls_return_within_max_len_plus_one n cs self :
  0 <= n ->
  reachable (Some n) self ->
  Forall accepted cs ->
  exists self',
    run cs self = Ok self' /\
    reachable (Some n) self' /\
    len (unfiltered_list self') <= n + 1 /\
    len (_paused_buffer self') <= n + 1 /\
    len (filtered_list self') <= n + 1.
Proof.
  intros Hn Hr Hcs.
  destruct (run_bounded n cs self Hcs (reachable_bounded n self Hn Hr))
    as (self' & Hrun & Hb).
  exists self'. split; [exact Hrun|].
  split; [exact (run_reachable _ _ _ _ Hr Hrun)|].
  destruct Hb as (_ & _ & Hu & Hp & Hf). auto.
Qed.

Lemma calls_return_within_max_len_plus_one_witness :
  let t := "Nov 04 2026 12:00:00"%string in
  let cs := [Write t "a"; SetPaused true; WriteLevel t "INFO: b" None;
             SetLogLevelFilter LOG_INFO; SetPaused false; Write t "c"] in
  exists self',
    run cs (set_max_len (Some 1) OutputList__init__) = Ok self' /\
    len (unfiltered_list self') <= 2.
Proof.
  intros t cs.
  destruct (calls_return_within_max_len_plus_one 1 cs
              (set_max_len (Some 1) OutputList__init__)) as (self' & Hrun & _ & Hu & _).
  - lia.
  - constructor.
  - repeat constructor. eexists. reflexivity.
  - exists self'. split; [exact Hrun|exact Hu].
Defined.

(** ** clear *)

(** X10.  [clear()] makes any object usable again, paused or not and
    however long its buffers were: with [max_len = n >= 0] the cleared object
    holds no item, keeps [paused], [log_level_filter] and [max_len], has a
    consistent [filtered_list], and every sequence of admitted calls on it
    runs to the end. *)
Theorem clear_recovers n cs self :
  max_len self = Some n -> 0 <= n ->
  Forall accepted cs ->
  all_items (clear self) = [] /\
  paused (clear self) = paused self /\
  log_level_filter (clear self) = log_level_filter self /\
  max_len (clear self) = max_len self /\
  filter_consistent (clear self) /\
  exists self', run cs (clear self) = Ok self' /\ bounded n self'.
Proof.
  intros Hml Hn Hcs. repeat (split; [reflexivity|]).
  apply run_bounded; [exact Hcs|].
  repeat split; try assumption; unfold len; simpl; lia.
Qed.

Lemma clear_recovers_witness :
  let t := "Nov 04 2026 12:00:00"%string in
  exists stuck self',
    run (flood LOG_ERROR 3) OutputList__init__ = Ok stuck /\
    write t "x" (set_max_len (Some 0) stuck) = Raise AssertionError /\
    run [Write t "x"] (clear (set_max_len (Some 0) stuck)) = Ok self' /\
    unfiltered_list self' = [mkLogItem LOG_LEVEL_CONSOLE t "x"].
Proof.
  intros t. eexists. 
  destruct (clear_recovers 0 [Write t "x"]
              (set_max_len (Some 0)
                 (with_filtered_list (repeat (mkLogItem LOG_ERROR t "tick") 3)
                    (with_unfiltered_list (repeat (mkLogItem LOG_ERROR t "tick") 3)
                       OutputList__init__))) eq_refl)
    as (_ & _ & _ & _ & _ & self' & Hrun & _);
    [lia|repeat constructor|].
  exists self'. split; [vm_compute; reflexivity|].
  split; [reflexivity|]. split; [exact Hrun|].
  vm_compute in Hrun. injection Hrun as <-. reflexivity.
Defined.

(** ** The buffers as windows on what was written *)

Lemma newest_short n (l : list LogItem) : len l <= n + 1 -> newest n l = l.
Proof. intros Hlen. unfold newest. apply take_ge. unfold len in Hlen. lia. Qed.

Lemma newest_newest_app n (a b : list LogItem) :
  newest n (a ++ newest n b) = newest n (a ++ b).
Proof.
  unfold newest. rewrite !take_app, take_take. f_equal. f_equal. lia.
Qed.

Lemma len_newest n (l : list LogItem) : 0 <= n -> len (newest n l) <= n + 1.
Proof. intros Hn. unfold newest, len. rewrite length_take. lia. Qed.

Lemma append_truncate_newest self buffer s n :
  max_len self = Some n -> 0 <= n -> len buffer <= n + 1 ->
  append_truncate self buffer s = Ok (newest n (s :: buffer)).
Proof.
  intros Hml Hn Hlen.
  destruct (append_truncate_bounded self buffer s n Hml Hn Hlen)
    as (b & -> & _ & ->).
  f_equal. unfold newest.
  replace (Z.to_nat (n + 1)) with (S (Z.to_nat n)) by lia.
  simpl. f_equal. case_bool_decide as Hroom.
  - symmetry. apply take_ge. unfold len in Hroom. lia.
  - rewrite removelast_firstn_len. f_equal. unfold len in *. lia.
Qed.

Lemma write_level_window n now s level self :
  bounded n self ->
  let item := LogItem__init__ now s level in
  exists self',
    write_level now s level self = Ok self' /\ bounded n self' /\
    paused self' = paused self /\
    log_level_filter self' = log_level_filter self /\
    target_buffer self' = newest n (item :: target_buffer self) /\
    (paused self = true ->
     unfiltered_list self' = unfiltered_list self /\
     filtered_list self' = filtered_list self) /\
    (paused self = false ->
     _paused_buffer self' = _paused_buffer self /\
     filtered_list self' =
       newest n (filter (passes (log_level_filter self)) [item]
                 ++ filtered_list self)).
Proof.
  intros Hb item.
  destruct (write_level_bounded n now s level self Hb) as (self' & Hw & Hb').
  exists self'. split; [exact Hw|]. split; [exact Hb'|].
  destruct Hb as (Hml & Hn & Hu & Hp & Hf).
  apply write_level_Ok in Hw as (_ & Hp' & Hthr & Hw). fold item in Hw.
  split; [exact Hp'|]. split; [exact Hthr|].
  unfold target_buffer. rewrite Hp'.
  destruct (paused self).
  - destruct Hw as (Hbuf & Hu' & Hf').
    rewrite (append_truncate_newest self _ item n Hml Hn Hp) in Hbuf.
    injection Hbuf as <-.
    split; [reflexivity|]. split; [auto|discriminate].
  - destruct Hw as (Hbuf & Hp'' & Hf').
    rewrite (append_truncate_newest self _ item n Hml Hn Hu) in Hbuf.
    injection Hbuf as <-.
    split; [reflexivity|]. split; [discriminate|]. intros _.
    split; [exact Hp''|].
    rewrite filter_cons, filter_nil.
    destruct (matches_log_level_filter item (log_level_filter self)) eqn:Hm.
    + rewrite (append_truncate_newest self _ item n Hml Hn Hf) in Hf'.
      injection Hf' as <-.
      rewrite decide_True; [reflexivity|].
      apply matches_log_level_filter_spec. exact Hm.
    + rewrite Hf', decide_False.
      * simpl. symmetry. apply newest_short. exact Hf.
      * intros Hpass. apply matches_log_level_filter_spec in Hpass. congruence.
Qed.

Lemma step_write_window n c self :
  bounded n self -> is_write c ->
  let items := option_list (item_of_call c) in
  exists self',
    step c self = Ok self' /\ bounded n self' /\
    paused self' = paused self /\
    log_level_filter self' = log_level_filter self /\
    target_buffer self' = newest n (items ++ target_buffer self) /\
    (paused self = true ->
     unfiltered_list self' = unfiltered_list self /\
     filtered_list self' = filtered_list self) /\
    (paused self = false ->
     _paused_buffer self' = _paused_buffer self /\
     filtered_list self' =
       newest n (filter (passes (log_level_filter self)) items
                 ++ filtered_list self)).
Proof.
  intros Hb Hc. destruct c as [now s|now s level| | | | |]; try destruct Hc.
  - simpl. destruct (PyStr.isspace s) eqn:Hs.
    + exists self. rewrite write_isspace by exact Hs.
      destruct Hb as (Hml & Hn & Hu & Hp & Hf).
      split; [reflexivity|]. split; [repeat split; assumption|].
      split; [reflexivity|]. split; [reflexivity|]. simpl.
      split; [|split; intros _; (split; [reflexivity|])].
      * symmetry. apply newest_short. unfold target_buffer.
        destruct (paused self); assumption.
      * reflexivity.
      * rewrite ?filter_nil. simpl. symmetry. apply newest_short. exact Hf.
    + rewrite write_as_write_level by exact Hs.
      apply (write_level_window n now s (Some LOG_LEVEL_CONSOLE) self Hb).
  - apply (write_level_window n now s level self Hb).
Qed.

Lemma written_cons c cs :
  written (c :: cs) = (written cs ++ option_list (item_of_call c))%list.
Proof.
  unfold written. simpl. destruct (item_of_call c); simpl.
  - reflexivity.
  - symmetry. apply app_nil_r.
Qed.

(** After a run of writes each buffer holds the [max_len + 1] newest of
    its items, the newest first. *)
Lemma run_writes_window n cs self :
  bounded n self -> Forall is_write cs ->
  exists self',
    run cs self = Ok self' /\ bounded n self' /\
    paused self' = paused self /\
    log_level_filter self' = log_level_filter self /\
    target_buffer self' = newest n (written cs ++ target_buffer self) /\
    (paused self = true ->
     unfiltered_list self' = unfiltered_list self /\
     filtered_list self' = filtered_list self) /\
    (paused self = false ->
     _paused_buffer self' = _paused_buffer self /\
     filtered_list self' =
       newest n (filter (passes (log_level_filter self)) (written cs)
                 ++ filtered_list self)).
Proof.
  intros Hb Hcs. revert self Hb.
  induction Hcs as [|c cs Hc _ IH]; intros self Hb.
  - exists self. destruct Hb as (Hml & Hn & Hu & Hp & Hf).
    split; [reflexivity|]. split; [repeat split; assumption|].
    split; [reflexivity|]. split; [reflexivity|].
    split; [|split; intros _; (split; [reflexivity|])].
    + symmetry. apply newest_short. unfold target_buffer.
      destruct (paused self); assumption.
    + reflexivity.
    + symmetry. apply newest_short. exact Hf.
  - destruct (step_write_window n c self Hb Hc)
      as (self1 & Hstep & Hb1 & Hp1 & Hthr1 & Ht1 & Hpaused1 & Hlive1).
    destruct (IH self1 Hb1)
      as (self' & Hrun & Hb' & Hp' & Hthr' & Ht' & Hpaused' & Hlive').
    exists self'. simpl. rewrite Hstep.
    split; [exact Hrun|]. split; [exact Hb'|].
    split; [congruence|]. split; [congruence|].
    rewrite written_cons. split; [|split].
    + rewrite Ht', Ht1, newest_newest_app, app_assoc. reflexivity.
    + intros Hp. rewrite Hp in Hp1.
      destruct (Hpaused' Hp1) as [-> ->]. exact (Hpaused1 Hp).
    + intros Hp. rewrite Hp in Hp1.
      destruct (Hlive' Hp1) as [-> ->]. destruct (Hlive1 Hp) as [-> ->].
      split; [reflexivity|].
      rewrite Hthr1, newest_newest_app, filter_app, app_assoc. reflexivity.
Qed.

(** X11.  What the buffers hold.  After any run of [write] and
    [write_level] calls on an unpaused object within the bound,
    [unfiltered_list] is the [max_len + 1] newest of the items written and
    the items it held, the newest first, and [filtered_list] is the
    [max_len + 1] newest of the written items that pass the threshold and
    the items it held: each list is truncated by its own length. *)
Theorem buffers_hold_newest_items n cs self :
  bounded n self -> paused self = false -> Forall is_write cs ->
  exists self',
    run cs self = Ok self' /\
    unfiltered_list self' = newest n (written cs ++ unfiltered_list self) /\
    filtered_list self' =
      newest n (filter (passes (log_level_filter self)) (written cs)
                ++ filtered_list self) /\
    _paused_buffer self' = _paused_buffer self.
Proof.
  intros Hb Hp Hcs.
  destruct (run_writes_window n cs self Hb Hcs)
    as (self' & Hrun & _ & Hp' & _ & Ht & _ & Hlive).
  exists self'. split; [exact Hrun|].
  unfold target_buffer in Ht. rewrite Hp', Hp in Ht.
  destruct (Hlive Hp) as [Hpb Hf]. auto.
Qed.

Lemma buffers_hold_newest_items_witness :
  let t := "Nov 04 2026 12:00:00"%string in
  let self := set_max_len (Some 1) OutputList__init__ in
  let cs := [WriteLevel t "A" (Some LOG_ERROR); Write t " ";
             WriteLevel t "B" (Some LOG_DEBUG); Write t "C"] in
  exists self',
    run cs self = Ok self' /\
    unfiltered_list self' =
      [mkLogItem LOG_LEVEL_CONSOLE t "C"; mkLogItem LOG_DEBUG t "B"] /\
    filtered_list self' =
      [mkLogItem LOG_LEVEL_CONSOLE t "C"; mkLogItem LOG_ERROR t "A"].
Proof.
  intros t self cs.
  destruct (buffers_hold_newest_items 1 cs self) as (self' & Hrun & Hu & Hf & _).
  - repeat split; unfold len; simpl; lia.
  - reflexivity.
  - repeat constructor.
  - exists self'. split; [exact Hrun|]. rewrite Hu, Hf. split; reflexivity.
Defined.

(** ** Pausing *)

Lemma run_app cs1 cs2 self :
  run (cs1 ++ cs2) self = (self1 ← run cs1 self; run cs2 self1).
Proof.
  revert self. induction cs1 as [|c cs1 IH]; intros self; [reflexivity|].
  simpl. destruct (step c self) as [self1|e]; [apply IH|reflexivity].
Qed.

Lemma step_keeps_paused_buffer_empty c self self' :
  step c self = Ok self' ->
  (paused self = false -> _paused_buffer self = []) ->
  paused self' = false -> _paused_buffer self' = [].
Proof.
  intros Hstep Hinv Hp'.
  assert (forall now s level,
            write_level now s level self = Ok self' -> _paused_buffer self' = [])
    as Hlevel.
  { intros now s level Hw.
    apply write_level_Ok in Hw as (_ & Hp & _ & Hw).
    rewrite Hp' in Hp. rewrite <- Hp in Hw.
    destruct Hw as (_ & -> & _). apply Hinv. congruence. }
  destruct c as [now s|now s level|v|v| | |]; simpl in Hstep.
  - destruct (PyStr.isspace s) eqn:Hs.
    + rewrite write_isspace in Hstep by exact Hs. injection Hstep as <-. auto.
    + rewrite write_as_write_level in Hstep by exact Hs.
      exact (Hlevel _ _ _ Hstep).
  - exact (Hlevel _ _ _ Hstep).
  - unfold set_log_level_filter in Hstep.
    case_bool_decide; [|discriminate Hstep].
    case_bool_decide; injection Hstep as <-; auto.
  - injection Hstep as <-. revert Hp'. unfold set_paused.
    case_bool_decide as Hsame; [auto|].
    unfold _paused_changed. destruct v; simpl; [discriminate|reflexivity].
  - injection Hstep as <-. reflexivity.
  - injection Hstep as <-. auto.
  - injection Hstep as <-. auto.
Qed.

(** X12.  [_paused_buffer] is empty whenever the object is not paused,
    after any calls whatever, for any [max_len]: the buffer is filled on
    pausing and emptied on resuming and by [clear()], and no unpaused call
    writes to it. *)
Theorem paused_buffer_empty_unless_paused ml self :
  reachable ml self -> paused self = false -> _paused_buffer self = [].
Proof.
  induction 1 as [|c self self' _ IH Hstep]; [reflexivity|].
  exact (step_keeps_paused_buffer_empty c self self' Hstep IH).
Qed.

Lemma paused_buffer_empty_unless_paused_witness :
  let t := "Nov 04 2026 12:00:00"%string in
  exists self,
    run [SetPaused true; Write t "held"; SetPaused false; Write t "live"]
        OutputList__init__ = Ok self /\
    paused self = false /\
    _paused_buffer self = [].
Proof.
  intros t. eexists. split; [vm_compute; reflexivity|].
  split; [reflexivity|].
  apply (paused_buffer_empty_unless_paused (Some DEFAULT_MAX_LEN));
    [|reflexivity].
  apply (run_reachable (Some DEFAULT_MAX_LEN)
           [SetPaused true; Write t "held"; SetPaused false; Write t "live"]
           OutputList__init__); [constructor|vm_compute; reflexivity].
Defined.

(** X13.  Pausing loses and reorders nothing.  On an unpaused object
    within the bound, pausing, making any run of [write] and [write_level]
    calls and resuming ends with the same [unfiltered_list] as making the
    calls without pausing; and after resuming [filtered_list] is consistent
    with it and [_paused_buffer] is empty. *)
Theorem pause_is_transparent n cs self :
  bounded n self -> paused self = false -> Forall is_write cs ->
  exists resumed live,
    run (SetPaused true :: cs ++ [SetPaused false]) self = Ok resumed /\
    run cs self = Ok live /\
    unfiltered_list resumed = unfiltered_list live /\
    unfiltered_list resumed = newest n (written cs ++ unfiltered_list self) /\
    filter_consistent resumed /\
    _paused_buffer resumed = [] /\
    paused resumed = false.
Proof.
  intros Hb Hp Hcs.
  destruct (run_writes_window n cs self Hb Hcs)
    as (live & Hlive & _ & Hplive & _ & Htlive & _).
  unfold target_buffer in Htlive. rewrite Hplive, Hp in Htlive.
  set (self1 := set_paused true self).
  assert (self1 = with_paused_buffer (unfiltered_list self) (with_paused true self))
    as Hself1.
  { unfold self1, set_paused. rewrite Hp. reflexivity. }
  destruct (run_writes_window n cs self1 (set_paused_bounded n true self Hb) Hcs)
    as (self2 & Hrun2 & _ & Hp2 & _ & Ht2 & _).
  rewrite Hself1 in Hp2, Ht2. simpl in Hp2.
  unfold target_buffer in Ht2. rewrite Hp2 in Ht2. simpl in Ht2.
  exists (set_paused false self2), live.
  split.
  { change (run (SetPaused true :: cs ++ [SetPaused false]) self)
      with (run (cs ++ [SetPaused false]) self1).
    rewrite run_app, Hrun2. reflexivity. }
  split; [exact Hlive|].
  assert (unfiltered_list (set_paused false self2) = _paused_buffer self2) as Hu.
  { unfold set_paused. rewrite Hp2. reflexivity. }
  split; [rewrite Hu, Ht2, Htlive; reflexivity|].
  split; [rewrite Hu, Ht2; reflexivity|].
  split; [apply set_paused_false_consistent; exact Hp2|].
  unfold set_paused. rewrite Hp2. split; reflexivity.
Qed.

Lemma pause_is_transparent_witness :
  let t := "Nov 04 2026 12:00:00"%string in
  let self := set_max_len (Some 1) OutputList__init__ in
  let cs := [Write t "a"; WriteLevel t "DEBUG: b" None; Write t "c"] in
  exists resumed live,
    run (SetPaused true :: cs ++ [SetPaused false]) self = Ok resumed /\
    run cs self = Ok live /\
    unfiltered_list resumed = unfiltered_list live.
Proof.
  intros t self cs.
  destruct (pause_is_transparent 1 cs self)
    as (resumed & live & Hr & Hl & Hu & _).
  - repeat split; unfold len; simpl; lia.
  - reflexivity.
  - repeat constructor.
  - exists resumed, live. auto.
Defined.

(** X14.  Pausing and resuming at once is a refresh: [unfiltered_list] is
    kept, [filtered_list] is recomputed from it (an item a write dropped
    from [unfiltered_list] leaves [filtered_list] too) and [_paused_buffer]
    is emptied; on an object whose [filtered_list] was consistent and whose
    [_paused_buffer] was empty nothing changes at all. *)
Theorem pause_resume_refreshes self :
  paused self = false ->
  let self' := set_paused false (set_paused true self) in
  unfiltered_list self' = unfiltered_list self /\
  filter_consistent self' /\
  _paused_buffer self' = [] /\
  paused self' = false /\
  (filter_consistent self -> _paused_buffer self = [] -> self' = self).
Proof.
  intros Hp self'.
  assert (self' =
          mkOutputList (unfiltered_list self) []
            (filter (passes (log_level_filter self)) (unfiltered_list self))
            (log_level_filter self) (max_len self) false) as ->.
  { unfold self', set_paused. rewrite Hp. simpl.
    unfold _paused_changed, _log_level_filter_changed. simpl.
    unfold with_paused_buffer, with_filtered_list. simpl.
    rewrite comprehension_filter. reflexivity. }
  simpl. repeat (split; [reflexivity|]).
  intros Hc Hpb. destruct self as [u pb f thr ml p].
  unfold filter_consistent in Hc. simpl in *. subst. reflexivity.
Qed.

Lemma pause_resume_refreshes_witness :
  let t := "Nov 04 2026 12:00:00"%string in
  exists stale,
    run [WriteLevel t "a" (Some LOG_ERROR); WriteLevel t "b" (Some LOG_DEBUG);
         WriteLevel t "c" (Some LOG_DEBUG)]
        (set_max_len (Some 1) OutputList__init__) = Ok stale /\
    paused stale = false /\
    filtered_list stale = [mkLogItem LOG_ERROR t "a"] /\
    filtered_list (set_paused false (set_paused true stale)) = [].
Proof.
  intros t. eexists. split; [vm_compute; reflexivity|].
  split; [reflexivity|]. split; [reflexivity|].
  match goal with
  | |- filtered_list (set_paused false (set_paused true ?s)) = _ =>
      destruct (pause_resume_refreshes s eq_refl) as (_ & Hc & _)
  end.
  rewrite Hc. reflexivity.
Defined.

(** ** The threshold *)

Lemma filter_passes_mono v1 v2 (l : list LogItem) :
  v1 <= v2 -> sublist (filter (passes v1) l) (filter (passes v2) l).
Proof.
  intros Hv. induction l as [|item l IH]; [constructor|].
  rewrite !filter_cons.
  destruct (decide (passes v1 item)) as [H1|H1].
  - rewrite decide_True by (unfold passes in *; lia).
    apply sublist_skip. exact IH.
  - destruct (decide (passes v2 item)); [apply sublist_cons|]; exact IH.
Qed.

(** X15.  A higher threshold shows more: assigning the thresholds
    [v1 <= v2] to the same object with a consistent [filtered_list] gives
    filtered lists of which the first is a sublist of the second, both
    sublists of [unfiltered_list], which the assignment leaves alone. *)
Theorem higher_threshold_shows_more v1 v2 self self1 self2 :
  filter_consistent self ->
  v1 <= v2 ->
  set_log_level_filter v1 self = Ok self1 ->
  set_log_level_filter v2 self = Ok self2 ->
  sublist (filtered_list self1) (filtered_list self2) /\
  sublist (filtered_list self2) (unfiltered_list self) /\
  unfiltered_list self1 = unfiltered_list self /\
  unfiltered_list self2 = unfiltered_list self.
Proof.
  intros Hc Hv H1 H2.
  apply set_log_level_filter_Ok in H1 as (Hthr1 & Hu1 & Hc1).
  apply set_log_level_filter_Ok in H2 as (Hthr2 & Hu2 & Hc2).
  specialize (Hc1 (or_intror Hc)). specialize (Hc2 (or_intror Hc)).
  unfold filter_consistent in Hc1, Hc2.
  rewrite Hc1, Hc2, Hthr1, Hthr2, Hu1, Hu2.
  split; [apply filter_passes_mono; exact Hv|].
  split; [apply sublist_filter|]. split; reflexivity.
Qed.

Lemma higher_threshold_shows_more_witness :
  let t := "Nov 04 2026 12:00:00"%string in
  exists self self1 self2,
    run [WriteLevel t "INFO: i" None; WriteLevel t "DEBUG: d" None;
         WriteLevel t "ERROR: e" None] OutputList__init__ = Ok self /\
    filter_consistent self /\
    set_log_level_filter LOG_INFO self = Ok self1 /\
    set_log_level_filter LOG_DEBUG self = Ok self2 /\
    sublist (filtered_list self1) (filtered_list self2).
Proof.
  intros t. eexists. eexists. eexists.
  split; [vm_compute; reflexivity|].
  assert (forall A B C D : Prop, A -> B -> C -> (A -> B -> C -> D) ->
                                 A /\ B /\ C /\ D) as Hconj by tauto.
  apply Hconj; [reflexivity|reflexivity|reflexivity|].
  intros Hc H1 H2.
  refine (proj1 (higher_threshold_shows_more LOG_INFO LOG_DEBUG _ _ _ Hc _ H1 H2)).
  unfold LOG_INFO, LOG_DEBUG. lia.
Defined.
